(** * VAE1D.py: a 1-D convolutional variational autoencoder, its loss and
      its dataset, embedded and checked against the specification.

    The file follows the layout of [VAE1D.py]:
    - [Py]: the fragment of Python the module relies on (exceptions, name
      resolution, list subscripts, [range], [str] of an integer);
    - [nn] and [torch]: the layer descriptors of [torch.nn] with their
      effect on tensor shapes, and tensors with real-valued elements living
      in a store;
    - the three classes [VAE1D], [VAE1DLoss] and [TransientDataset];
    - the properties of the specification, one theorem for each.

    Numbers: Python integers are [Z]; the double that [math.log2]
    returns is embedded where its rounding cannot change the outcome of
    the checks made on it; tensor elements are real numbers ([R]), so
    rounding of the 32-bit floats is outside this development.
    Network weights are not modelled: inside the convolutional pyramid a
    tensor is represented by its shape. *)

From Stdlib Require Import ZArith List String Ascii Bool Lia Reals Lra.
From Stdlib Require Import DecimalString DecimalZ DecimalPos FinFun.
From stdpp Require Import base option list strings gmap sorting.
Import ListNotations.

Open Scope string_scope.
Open Scope list_scope.
Open Scope Z_scope.

(* ================================================================== *)
(** * The Python fragment                                              *)
(* ================================================================== *)

Module Py.

(** Exceptions raised by the code or by the library calls it makes.
    [NotModelled] is not a Python exception: it marks an input on which
    the library behaves in a way this development does not embed
    (broadcasting, unbatched or empty inputs, a reference to no tensor,
    the rounding of a double).  No theorem relies on it. *)
Inductive exn : Type :=
| AssertionError (msg : string)
| ValueError (msg : string)
| NameError (name : string)
| UnboundLocalError (name : string)
| TypeError (msg : string)
| IndexError (msg : string)
| RuntimeError (msg : string)
| NotADirectoryError (path : string)
| FileNotFoundError (path : string)
| NotModelled (what : string).

Inductive result (A : Type) : Type :=
| Ok (a : A)
| Raise (e : exn).
Arguments Ok {A} a.
Arguments Raise {A} e.

Definition bind {A B} (r : result A) (k : A -> result B) : result B :=
  match r with
  | Ok a => k a
  | Raise e => Raise e
  end.

Definition fails {A} (r : result A) : Prop := exists e, r = Raise e.

(** [assert c, msg] *)
Definition assert (c : bool) (msg : string) : result unit :=
  if c then Ok tt else Raise (AssertionError msg).

(** [range(k)] and [range(start, 0, -1)], the two forms the module uses. *)
Definition range (k : Z) : list Z :=
  List.map Z.of_nat (List.seq 0 (Z.to_nat k)).

Definition range_down (start : Z) : list Z :=
  List.rev (List.map Z.of_nat (List.seq 1 (Z.to_nat start))).

(** A [for] loop whose body updates one variable and may raise. *)
Fixpoint for_each {A B} (l : list A) (body : B -> A -> result B) (b : B)
  : result B :=
  match l with
  | [] => Ok b
  | a :: l' =>
      match body b a with
      | Ok b' => for_each l' body b'
      | Raise e => Raise e
      end
  end.

(** [str(z)] and the [{z}] of an f-string: decimal digits, a leading
    minus sign for negative numbers. *)
Definition str (z : Z) : string := NilEmpty.string_of_int (Z.to_int z).

(** [l[i]] for an integer [i]: negative positions count from the end. *)
Definition getitem {A} (l : list A) (i : Z) : result A :=
  let len := Z.of_nat (length l) in
  let j := if i <? 0 then i + len else i in
  if (j <? 0) || (len <=? j) then Raise (IndexError "list index out of range")
  else match nth_error l (Z.to_nat j) with
       | Some a => Ok a
       | None => Raise (IndexError "list index out of range")
       end.

(** [l[i]] for an [i] that is itself a list: lists take integers (or
    slices) as subscripts. *)
Definition getitem_list {A B} (l : list A) (i : list B) : result A :=
  Raise (TypeError "list indices must be integers or slices, not list").

(** [enumerate(l)] *)
Definition enumerate {A} (l : list A) : list (Z * A) :=
  List.combine (List.map Z.of_nat (List.seq 0 (length l))) l.

(** [sorted(l)] on strings, which Python orders by code points. *)
Fixpoint insert_sorted (x : string) (l : list string) : list string :=
  match l with
  | [] => [x]
  | y :: l' => if String.leb x y then x :: l else y :: insert_sorted x l'
  end.

Definition sorted (l : list string) : list string :=
  List.fold_right insert_sorted [] l.

(** [s[-k:]]: the last [k] characters, all of [s] when it is shorter. *)
Definition last_chars (k : nat) (s : string) : string :=
  String.substring (String.length s - k) k s.

(** [l.index(x)], with [eq] the outcome of [==] between an element
    and [x]. *)
Fixpoint index_from {A B} (eq : A -> B -> bool) (l : list A) (x : B) (pos : Z)
  : result Z :=
  match l with
  | [] => Raise (ValueError "x is not in list")
  | a :: l' => if eq a x then Ok pos else index_from eq l' x (pos + 1)
  end.

Definition list_index {A B} (eq : A -> B -> bool) (l : list A) (x : B) : result Z :=
  index_from eq l x 0.

(** [==] between a list and a string is [False]. *)
Definition eq_list_str {A} (l : list A) (s : string) : bool := false.

(** Values bound to names, as far as the methods below look at them. *)
Inductive value : Type :=
| VStr (s : string)
| VShape (s : list Z)
| VObject (descr : string).

(** A name that is assigned somewhere in a function body is local to it:
    reading it before the assignment raises [UnboundLocalError]. *)
Definition load_fast (locals : gmap string value) (x : string) : result value :=
  match locals !! x with
  | Some v => Ok v
  | None => Raise (UnboundLocalError x)
  end.

(** A name that a function body never assigns is looked up in the
    globals of its module (the builtins hold none of the names used
    here). *)
Definition load_global (globals : gmap string value) (x : string) : result value :=
  match globals !! x with
  | Some v => Ok v
  | None => Raise (NameError x)
  end.

End Py.
Import Py.

#[global] Instance result_ret : MRet result := @Ok.
#[global] Instance result_bind : MBind result := fun A B k r => Py.bind r k.

(** [math.log2(size)] on an integer [size].  Python computes a double, and
    the code only asks whether it is an integer ([n == round(n)]), compares
    it with [3] and truncates it ([int(n)]): the double is represented by
    its integer part and by whether it is an integer.
    - Outside its domain [math.log2] raises [ValueError].
    - On a power of two the double is the exponent itself.
    - Any other positive integer below [2^32] has a logarithm that is more
      than [2^-32] away from every integer, while a double below 32 is
      known to [2^-48]: the double is not an integer, and its integer part
      is that of the logarithm.
    - On larger integers that are not powers of two the rounding of the
      double decides ([math.log2(2**49 - 1)] is [49.0]); they are left
      out. *)
Module math.

Record log2_value : Type := { floor : Z; exact : bool }.

(** Below this bound the double tells powers of two from other integers. *)
Definition log2_rounding_bound : Z := 2 ^ 32.

Definition log2 (size : Z) : result log2_value :=
  if size <=? 0 then Raise (ValueError "math domain error")
  else if size =? 2 ^ Z.log2 size then
    Ok {| floor := Z.log2 size; exact := true |}
  else if size <? log2_rounding_bound then
    Ok {| floor := Z.log2 size; exact := false |}
  else Raise (NotModelled "math.log2 of a large integer that is not a power of two").

(** [n == round(n)] *)
Definition is_round (n : log2_value) : bool := exact n.
(** [n >= k] for an integer [k] *)
Definition ge (n : log2_value) (k : Z) : bool := k <=? floor n.
(** [int(n)], for the non-negative [n] that [log2] returns on integers *)
Definition int (n : log2_value) : Z := floor n.

End math.

(* ================================================================== *)
(** * The fragment of torch                                            *)
(* ================================================================== *)

(** A tensor shape, outermost dimension first. *)
Definition shape : Type := list Z.

Module nn.

(** Layer descriptors: what [nn.Conv1d(...)] and the like are built
    from.  Dilation is 1, groups is 1 and output padding is 0
    throughout [VAE1D.py]. *)
Inductive Layer : Type :=
| Conv1dLayer (in_channels out_channels kernel_size stride padding : Z)
| ConvTranspose1dLayer (in_channels out_channels kernel_size stride padding : Z)
| BatchNorm1dLayer (num_features : Z)
| ReLU
| Tanh.

(** The constructors allocate the weights: a negative number of channels
    is refused. *)
Definition negative_dimension : exn :=
  RuntimeError "Trying to create tensor with negative dimension".

Definition Conv1d (in_channels out_channels kernel_size stride padding : Z)
  : result Layer :=
  if (in_channels <? 0) || (out_channels <? 0) then Raise negative_dimension
  else Ok (Conv1dLayer in_channels out_channels kernel_size stride padding).

Definition ConvTranspose1d (in_channels out_channels kernel_size stride padding : Z)
  : result Layer :=
  if (in_channels <? 0) || (out_channels <? 0) then Raise negative_dimension
  else Ok (ConvTranspose1dLayer in_channels out_channels kernel_size stride padding).

Definition BatchNorm1d (num_features : Z) : result Layer :=
  if num_features <? 0 then Raise negative_dimension
  else Ok (BatchNorm1dLayer num_features).

(** The shape a layer returns on a batched input [(N, C, L)].
    - [Conv1d]: [L_out = floor((L + 2*padding - kernel_size) / stride) + 1];
    - [ConvTranspose1d]: [L_out = (L - 1)*stride - 2*padding + kernel_size],
      on an input that has at least one position;
    - [BatchNorm1d] (a fresh module is in training mode) wants more than
      one value for each channel;
    - the activations keep the shape. *)
Definition forward (m : Layer) (x : shape) : result shape :=
  match m with
  | Conv1dLayer cin cout k s p =>
      match x with
      | [b; c; l] =>
          if negb (c =? cin) then
            Raise (RuntimeError "expected input to have in_channels channels")
          else if l + 2 * p <? k then
            Raise (RuntimeError "Kernel size can't be greater than actual input size")
          else Ok [b; cout; (l + 2 * p - (k - 1) - 1) / s + 1]
      | _ => Raise (NotModelled "Conv1d on an input that is not (N, C, L)")
      end
  | ConvTranspose1dLayer cin cout k s p =>
      match x with
      | [b; c; l] =>
          if negb (c =? cin) then
            Raise (RuntimeError "expected input to have in_channels channels")
          else if l <? 1 then
            Raise (NotModelled "ConvTranspose1d on an input without positions")
          else Ok [b; cout; (l - 1) * s - 2 * p + (k - 1) + 1]
      | _ => Raise (NotModelled "ConvTranspose1d on an input that is not (N, C, L)")
      end
  | BatchNorm1dLayer f =>
      match x with
      | [b; c; l] =>
          if negb (c =? f) then
            Raise (RuntimeError "running_mean should contain num_features elements")
          else if b * l =? 1 then
            Raise (ValueError "Expected more than 1 value per channel when training")
          else Ok x
      | _ => Raise (NotModelled "BatchNorm1d on an input that is not (N, C, L)")
      end
  | ReLU => Ok x
  | Tanh => Ok x
  end.

(** [nn.Sequential]: an ordered dictionary of named layers.
    [add_module] overwrites the layer of a name that is already there
    and keeps its position, as the assignment to the underlying
    [OrderedDict] does. *)
Definition Sequential : Type := list (string * Layer).

Definition new_Sequential : Sequential := [].

Fixpoint add_module (s : Sequential) (name : string) (m : Layer) : Sequential :=
  match s with
  | [] => [(name, m)]
  | (k, v) :: rest =>
      if String.eqb k name then (k, m) :: rest
      else (k, v) :: add_module rest name m
  end.

(** Calling a [Sequential] feeds the input through its layers in order. *)
Definition Sequential_forward (s : Sequential) (x : shape) : result shape :=
  for_each s (fun x '(_, m) => forward m x) x.

End nn.

(** [t.squeeze(-1)]: drops the last dimension when it is 1. *)
Definition squeeze_last (s : shape) : shape :=
  match List.rev s with
  | 1 :: r => List.rev r
  | _ => s
  end.

(** Tensors with their elements, for the code that computes on values.
    A tensor is a shape and its elements in row-major order.  Tensors are
    objects: they live in a store and are passed by reference, so that an
    in-place method is seen by everyone who holds the tensor. *)
Module torch.

Record Tensor : Type := { shape_of : shape; data : list R }.

Definition loc : Type := nat.

(** The store, the state of the random generator (the normal deviates it
    is going to hand out) and, for the record, the tensors that in-place
    methods have written to. *)
Record State : Type := {
  heap : list Tensor;
  rng : nat -> R;
  written : list loc
}.

Definition M (A : Type) : Type := State -> result (A * State).

#[global] Instance M_ret : MRet M := fun A a st => Ok (a, st).
#[global] Instance M_bind : MBind M := fun A B k c st =>
  match c st with
  | Ok (a, st') => k a st'
  | Raise e => Raise e
  end.

Definition raise {A} (e : exn) : M A := fun _ => Raise e.

(** A new tensor object. *)
Definition alloc (t : Tensor) : M loc := fun st =>
  Ok (length (heap st),
      {| heap := heap st ++ [t]; rng := rng st; written := written st |}).

Definition read (l : loc) : M Tensor := fun st =>
  match heap st !! l with
  | Some t => Ok (t, st)
  | None => Raise (NotModelled "a reference to no tensor")
  end.

(** Overwriting the elements of an existing tensor object. *)
Definition write (l : loc) (t : Tensor) : M unit := fun st =>
  Ok (tt, {| heap := <[l := t]> (heap st); rng := rng st;
             written := written st ++ [l] |}).

(** The next [k] deviates of the generator. *)
Definition draw (k : nat) : M (list R) := fun st =>
  Ok (List.map (rng st) (List.seq 0 k),
      {| heap := heap st; rng := (fun i => rng st (i + k)%nat);
         written := written st |}).

(** [c * t] for a Python number [c] *)
Definition scalar_mul (c : R) (t : loc) : M loc :=
  x ← read t;
  alloc {| shape_of := shape_of x; data := List.map (Rmult c) (data x) |}.

(** [torch.exp(t)] *)
Definition exp (t : loc) : M loc :=
  x ← read t;
  alloc {| shape_of := shape_of x; data := List.map Rtrigo_def.exp (data x) |}.

(** [torch.randn_like(t)]: a new tensor of the shape of [t] filled with
    deviates of the standard normal distribution. *)
Definition randn_like (t : loc) : M loc :=
  x ← read t;
  eps ← draw (length (data x));
  alloc {| shape_of := shape_of x; data := eps |}.

(** [a.mul(b)]: a new tensor, the element-wise product. *)
Definition mul (a b : loc) : M loc :=
  x ← read a;
  y ← read b;
  if decide (shape_of x = shape_of y) then
    alloc {| shape_of := shape_of x; data := zip_with Rmult (data x) (data y) |}
  else raise (NotModelled "broadcasting").

(** [a.add_(b)]: adds [b] to [a] in place and returns [a] itself. *)
Definition add_ (a b : loc) : M loc :=
  x ← read a;
  y ← read b;
  if decide (shape_of x = shape_of y) then
    write a {| shape_of := shape_of x; data := zip_with Rplus (data x) (data y) |};;
    mret a
  else raise (NotModelled "broadcasting").

End torch.

(* ================================================================== *)
(** * class VAE1D                                                      *)
(* ================================================================== *)

Definition depth : Z := 64.     (* initial depth to convolve channels into *)
Definition filt_size : Z := 4.  (* convolution filter size *)
Definition stride : Z := 2.     (* stride for conv *)
Definition pad : Z := 1.        (* padding added for conv *)

Module VAE1D.

Record Self : Type := {
  n_latent : Z;
  encoder : nn.Sequential;
  conv_mu : nn.Layer;
  conv_logvar : nn.Layer;
  decoder : nn.Sequential
}.

(** One turn of the encoder loop, [for i in range(n - 3)]. *)
Definition encoder_stage (encoder : nn.Sequential) (i : Z) : result nn.Sequential :=
  let i_depth := depth * 2 ^ i in
  let o_depth := depth * 2 ^ (i + 1) in
  conv ← nn.Conv1d i_depth o_depth filt_size stride pad;
  let encoder :=
    nn.add_module encoder
      ("pyramid_" +:+ str i_depth +:+ "-" +:+ str o_depth +:+ "_conv") conv in
  bn ← nn.BatchNorm1d o_depth;
  let encoder :=
    nn.add_module encoder ("pyramid_" +:+ str o_depth +:+ "_batchnorm") bn in
  Ok (nn.add_module encoder ("pyramid_" +:+ str o_depth +:+ "_relu") nn.ReLU).

(** One turn of the decoder loop, [for i in range(n - 3, 0, -1)]. *)
Definition decoder_stage (decoder : nn.Sequential) (i : Z) : result nn.Sequential :=
  let i_depth := depth * 2 ^ i in
  let o_depth := depth * 2 ^ (i - 1) in
  conv ← nn.ConvTranspose1d i_depth o_depth filt_size stride pad;
  let decoder :=
    nn.add_module decoder
      ("pyramid_" +:+ str i_depth +:+ "-" +:+ str o_depth +:+ "_conv") conv in
  bn ← nn.BatchNorm1d o_depth;
  let decoder :=
    nn.add_module decoder ("pyramid_" +:+ str o_depth +:+ "_batchnorm") bn in
  Ok (nn.add_module decoder ("pyramid_" +:+ str o_depth +:+ "_relu") nn.ReLU).

(** [VAE1D(size, n_channels, n_latent=100)].  The closing loop of the
    constructor draws the initial weights and changes no layer. *)
Definition __init__ (size n_channels : Z) (n_latent : option Z) : result Self :=
  let n_latent := default 100 n_latent in
  n ← math.log2 size;
  assert (math.is_round n) "Vector size must be a power of 2";;
  assert (math.ge n 3) "Vector size must be at least 8";;
  let n := math.int n in
  (* Encoder *)
  let encoder := nn.new_Sequential in
  conv ← nn.Conv1d n_channels depth filt_size stride pad;
  let encoder := nn.add_module encoder "input-conv" conv in
  let encoder := nn.add_module encoder "input-relu" nn.ReLU in
  encoder ← for_each (range (n - 3)) encoder_stage encoder;
  (* Latent representation *)
  let max_depth := depth * 2 ^ (n - 3) in
  conv_mu ← nn.Conv1d max_depth n_latent filt_size 1 0;
  conv_logvar ← nn.Conv1d max_depth n_latent filt_size 1 0;
  (* Decoder *)
  let decoder := nn.new_Sequential in
  conv ← nn.ConvTranspose1d n_latent max_depth filt_size 1 0;
  let decoder := nn.add_module decoder "input-conv" conv in
  bn ← nn.BatchNorm1d max_depth;
  let decoder := nn.add_module decoder "input-batchnorm" bn in
  let decoder := nn.add_module decoder "input-relu" nn.ReLU in
  decoder ← for_each (range_down (n - 3)) decoder_stage decoder;
  conv ← nn.ConvTranspose1d depth n_channels filt_size stride pad;
  let decoder := nn.add_module decoder "output-conv" conv in
  let decoder := nn.add_module decoder "output-tanh" nn.Tanh in
  Ok {| n_latent := n_latent; encoder := encoder; conv_mu := conv_mu;
        conv_logvar := conv_logvar; decoder := decoder |}.

(** The output of the encoder pyramid, before [encode] squeezes it and
    applies the latent heads. *)
Definition encoder_output (self : Self) (trans : shape) : result shape :=
  nn.Sequential_forward (encoder self) trans.

Definition encode (self : Self) (trans : shape) : result (shape * shape) :=
  output ← nn.Sequential_forward (encoder self) trans;
  let output := squeeze_last (squeeze_last output) in
  mu ← nn.forward (conv_mu self) output;
  logvar ← nn.forward (conv_logvar self) output;
  Ok (mu, logvar).

Definition decode (self : Self) (gen : shape) : result shape :=
  nn.Sequential_forward (decoder self) gen.


(** [generate] on tensor objects. *)
Definition generate (self : Self) (mu logvar : torch.loc) : torch.M torch.loc :=
  half ← torch.scalar_mul 0.5 logvar;
  std ← torch.exp half;
  gen ← torch.randn_like std;
  prod ← torch.mul gen std;
  torch.add_ prod mu.

(** What [generate] does to shapes (lemma [generate_shape_sound]). *)
Definition generate_shape (self : Self) (mu logvar : shape) : result shape :=
  if decide (logvar = mu) then Ok logvar
  else Raise (NotModelled "broadcasting").

(** The names bound at the top level of [VAE1D.py]. *)
Definition module_globals : gmap string value :=
  list_to_map
    (List.map (fun x => (x, VObject "module"))
       ["os"; "math"; "time"; "Path"; "date"; "np"; "pd"; "tqdm"; "torch";
        "nn"; "DataLoader"; "Dataset"; "roc_auc_score"; "product"; "stats"]
     ++ List.map (fun x => (x, VObject "int"))
       ["depth"; "filt_size"; "stride"; "pad"]
     ++ List.map (fun x => (x, VObject "class"))
       ["VAE1D"; "VAE1DLoss"; "TransientDataset"]
     ++ [("load_datasets", VObject "function")]).

(** [forward(self, imgs)].  The body never assigns [trans] and has no
    parameter of that name, so [trans] is read from the globals.  The
    loop over [(mu, logvar)] only rebinds its own variable [vecs]. *)
Definition forward (self : Self) (imgs : shape) : result (shape * shape * shape) :=
  trans ← load_global module_globals "trans";
  match trans with
  | VShape trans =>
      '(mu, logvar) ← encode self trans;
      gen ← generate_shape self mu logvar;
      rec ← decode self gen;
      Ok (rec, mu, logvar)
  | _ => Raise (TypeError "conv1d(): argument 'input' must be Tensor")
  end.

End VAE1D.

(* ================================================================== *)
(** * class VAE1DLoss                                                  *)
(* ================================================================== *)

(** The loss works on a batch of samples [batch][channel][position] and on
    latent vectors [batch][latent]: tensors of rank 3 and 2, as nested
    lists.  Their elements are real numbers and the arithmetic is exact, so
    what is proved about the loss is which expression the code evaluates
    on which elements; the value a 32-bit float takes after rounding (its
    sign, whether it is zero) is not. *)
Definition tensor2 : Type := list (list R).
Definition tensor3 : Type := list (list (list R)).

Module VAE1DLoss.

Open Scope R_scope.

Record Self : Type := { beta : R }.

(** [VAE1DLoss(beta=1)] *)
Definition __init__ (beta : option R) : Self := {| beta := default 1 beta |}.

(** The loss and its terms are scalars when [reduce] is set and
    one number for each sample otherwise. *)
Inductive value : Type :=
| Scalar (r : R)
| PerSample (v : list R).

Record terms : Type := { KL : value; logp : value }.

Definition sum (l : list R) : R := List.fold_right Rplus 0 l.

(** [torch.sum(t, dim=-1)] and [torch.mean(v)] *)
Definition sum_last (t : tensor2) : list R := List.map sum t.
Definition mean (v : list R) : R := sum v / INR (length v).

(** [t.reshape(batch_size, -1)] *)
Definition reshape_rows (t : tensor3) : tensor2 := List.map (@List.concat R) t.

Definition same_shape2 (a b : tensor2) : bool :=
  bool_decide (List.map (@length R) a = List.map (@length R) b).
Definition same_shape3 (a b : tensor3) : bool :=
  bool_decide (List.map (List.map (@length R)) a = List.map (List.map (@length R)) b).

(** [gen_err]: the lines under "Reconstruction loss", before [reduce]. *)
Definition gen_err (gen_trans trans : tensor3) : list R :=
  let diff := zip_with (zip_with (zip_with Rminus)) trans gen_trans in
  let gen_err := reshape_rows (List.map (List.map (List.map (fun x => x ^ 2))) diff) in
  List.map (Rmult 0.5) (sum_last gen_err).

(** [KL]: the lines under "Regularizer", before [reduce]. *)
Definition KL_rows (mu logvar : tensor2) : list R :=
  let neg := List.map (List.map Ropp) logvar in
  let ex := List.map (List.map exp) logvar in
  let sq := List.map (List.map (fun x => x ^ 2)) mu in
  let s1 := zip_with (zip_with Rplus) neg ex in
  let s2 := zip_with (zip_with Rplus) s1 sq in
  let s3 := List.map (List.map (fun x => x - 1)) s2 in
  let KL := List.map (List.map (fun x => x * 0.5)) s3 in
  sum_last KL.

Definition reduced (reduce : bool) (v : list R) : value :=
  if reduce then Scalar (mean v) else PerSample v.

Definition neg (v : value) : value :=
  match v with
  | Scalar r => Scalar (- r)
  | PerSample l => PerSample (List.map Ropp l)
  end.

Definition scale (c : R) (v : value) : value :=
  match v with
  | Scalar r => Scalar (c * r)
  | PerSample l => PerSample (List.map (Rmult c) l)
  end.

Definition add (a b : value) : result value :=
  match a, b with
  | Scalar x, Scalar y => Ok (Scalar (x + y))
  | PerSample x, PerSample y =>
      if decide (length x = length y) then Ok (PerSample (zip_with Rplus x y))
      else Raise (NotModelled "broadcasting")
  | _, _ => Raise (NotModelled "broadcasting")
  end.

Definition forward (self : Self) (gen_trans trans : tensor3) (mu logvar : tensor2)
    (reduce : bool) : result (value * terms) :=
  let batch_size := length trans in
  if decide (batch_size = 0%nat) then
    Raise (RuntimeError "cannot reshape tensor of 0 elements into shape [0, -1]")
  else if negb (same_shape3 trans gen_trans && same_shape2 mu logvar) then
    Raise (NotModelled "broadcasting")
  else
    let gen_err := reduced reduce (gen_err gen_trans trans) in
    let KL := reduced reduce (KL_rows mu logvar) in
    loss ← add gen_err (scale (beta self) KL);
    Ok (loss, {| KL := KL; logp := neg gen_err |}).

End VAE1DLoss.

(* ================================================================== *)
(** * class TransientDataset                                           *)
(* ================================================================== *)

(** The directory tree below the data path, as the dataset sees it: class
    directories holding sample files (a stray file among them is kept, to
    be refused by [listdir]).  A sample file holds an array
    [channel][position] when it can be loaded.  A path is the list of its
    components below the data path; [listdir] returns the names in the
    order of the directory. *)
Module os.

Inductive entry : Type :=
| File (content : option tensor2)
| Dir (files : list (string * option tensor2)).

Definition tree : Type := list (string * entry).

Definition Path : Type := list string.

Fixpoint find_entry {A} (entries : list (string * A)) (name : string) : option A :=
  match entries with
  | [] => None
  | (k, v) :: rest => if String.eqb k name then Some v else find_entry rest name
  end.

Definition listdir (fs : tree) (p : Path) : result (list string) :=
  match p with
  | [] => Ok (List.map fst fs)
  | c :: rest =>
      match find_entry fs c with
      | Some (Dir files) =>
          match rest with
          | [] => Ok (List.map fst files)
          | f :: _ =>
              match find_entry files f with
              | Some _ => Raise (NotADirectoryError f)
              | None => Raise (FileNotFoundError f)
              end
          end
      | Some (File _) => Raise (NotADirectoryError c)
      | None => Raise (FileNotFoundError c)
      end
  end.

(** [path / name] *)
Definition div (p : Path) (name : string) : Path := p ++ [name].

(** [path / name] for a [name] that is a list *)
Definition div_list {A} (p : Path) (name : list A) : result Path :=
  Raise (TypeError "unsupported operand type(s) for /: 'PosixPath' and 'list'").

End os.

Module np.

Definition load (fs : os.tree) (p : os.Path) : result tensor2 :=
  match p with
  | [c; f] =>
      match os.find_entry fs c with
      | Some (os.Dir files) =>
          match os.find_entry files f with
          | Some (Some arr) => Ok arr
          | Some None => Raise (ValueError "Cannot load file")
          | None => Raise (FileNotFoundError f)
          end
      | Some (os.File _) => Raise (NotADirectoryError c)
      | None => Raise (FileNotFoundError c)
      end
  | [c] =>
      match os.find_entry fs c with
      | Some (os.File (Some arr)) => Ok arr
      | Some (os.File None) => Raise (ValueError "Cannot load file")
      | Some (os.Dir _) => Raise (RuntimeError "Is a directory")
      | None => Raise (FileNotFoundError c)
      end
  | [] => Raise (RuntimeError "Is a directory")
  | c :: f :: g :: _ => Raise (FileNotFoundError g)
  end.

End np.

Module TransientDataset.

Record Self : Type := {
  path : os.Path;
  mu : list R;
  sigma : list R;
  classes : list string;
  names : list (list string);
  targets : list (list Z)
}.

Section Methods.

(** The file system, read and never written. *)
Variable fs : os.tree.

(** The body of the loop [for i, c in enumerate(self.classes)]: both
    [append] calls add one element, the list for class [c]. *)
Definition scan_class (path : os.Path)
  (acc : list (list string) * list (list Z)) (ic : Z * string)
  : result (list (list string) * list (list Z)) :=
  let '(i, c) := ic in
  names ← os.listdir fs (os.div path c);
  let targets := List.repeat i (length names) in
  Ok (fst acc ++ [names], snd acc ++ [targets]).

(** [TransientDataset(data_path, normals)]; row [c] of [normals] is
    the mean and the standard deviation of channel [c]. *)
Definition __init__ (data_path : os.Path) (normals : list (R * R)) : result Self :=
  let mu := List.map fst normals in
  let sigma := List.map snd normals in
  ls ← os.listdir fs data_path;
  let classes := sorted ls in
  acc ← for_each (enumerate classes) (scan_class data_path) ([], []);
  Ok {| path := data_path; mu := mu; sigma := sigma; classes := classes;
      names := fst acc; targets := snd acc |}.

Definition __len__ (self : Self) : Z := Z.of_nat (length (names self)).

(** [(arr - self.mu) / self.sigma]: [mu] and [sigma] are columns, one
    row for each channel of [arr]. *)
Definition norm (self : Self) (arr : tensor2) : result tensor2 :=
  if decide (length arr = length (mu self)) then
  Ok (zip_with (fun row ms => List.map (fun x => ((x - fst ms) / snd ms)%R) row)
        arr (List.combine (mu self) (sigma self)))
  else Raise (NotModelled "broadcasting").

(** [self.names[index]] and [self.targets[index]] are the lists built
    for one class, so [target] is a list when it is used as a subscript
    of [self.classes]. *)
Definition __getitem__ (self : Self) (index : Z) : result (tensor2 * list Z) :=
  name ← getitem (names self) index;
  target ← getitem (targets self) index;
  c ← getitem_list (classes self) target;
  p ← os.div_list (os.div (path self) c) name;
  arr ← np.load fs p;
  sample ← norm self arr;
  Ok (sample, target).

(** [index(self, name)].  [index] is assigned in the body, which makes
    it a local variable of the method; the parameters are the only
    locals bound on entry. *)
Definition index (self : Self) (name : string) : result Z :=
  let locals : gmap string value :=
  {[ "self" := VObject "TransientDataset"; "name" := VStr name ]} in
  let locals := <[ "name" := VStr name ]> locals in   (* name = str(name) *)
  v ← load_fast locals "index";
  match v with
  | VStr index =>
    let index :=
      if negb (String.eqb (last_chars 4 index) ".npy") then index +:+ ".npy"
      else index in
    list_index eq_list_str (names self) index
  | _ => Raise (TypeError "object is not subscriptable")
  end.

End Methods.

End TransientDataset.

(* ================================================================== *)
(** * load_datasets                                                    *)
(* ================================================================== *)

(** What [torch.utils.data.DataLoader(ds, batch_size=..., shuffle=...,
    num_workers=...)] is built from. *)
Record DataLoader : Type := {
  dataset : TransientDataset.Self;
  batch_size : Z;
  shuffle : bool;
  num_workers : Z
}.

(** [load_datasets(data_path, batch_size=32)].  [normals_npy] is the array
    in the file [normals.npy] of the working directory, when there is such
    a file; [train], [val] and [test] are the directory trees below
    [data_path / 'train/train/'], [data_path / 'train/val/'] and
    [data_path / 'test/'].  The body never assigns [datasets], so the name
    is read from the globals of the module. *)
Definition load_datasets (normals_npy : option (list (R * R)))
    (train val test : os.tree) (batch_size : option Z)
  : result (DataLoader * DataLoader * DataLoader) :=
  let batch_size := default 32 batch_size in
  normals ← match normals_npy with
            | Some arr => Ok arr
            | None => Raise (FileNotFoundError "normals.npy")
            end;
  datasets ← load_global VAE1D.module_globals "datasets";
  match datasets with
  | VObject _ =>
      train_ds ← TransientDataset.__init__ train [] normals;
      val_ds ← TransientDataset.__init__ val [] normals;
      test_ds ← TransientDataset.__init__ test [] normals;
      let train_dl := {| dataset := train_ds; batch_size := batch_size;
                         shuffle := true; num_workers := 4 |} in
      let val_dl := {| dataset := val_ds; batch_size := batch_size;
                       shuffle := true; num_workers := 4 |} in
      let test_dl := {| dataset := test_ds; batch_size := 1;
                        shuffle := true; num_workers := 4 |} in
      Ok (train_dl, val_dl, test_dl)
  | _ => Raise (NotModelled "an attribute of a value that is no module")
  end.

(* ================================================================== *)
(** * Auxiliary definitions for the proofs                             *)
(* ================================================================== *)

(** Reading back the number at the head of a layer name. *)
Definition is_digit (c : ascii) : bool :=
  ((48 <=? N_of_ascii c) && (N_of_ascii c <=? 57))%N.

Fixpoint span_digits (s : string) : string * string :=
  match s with
  | EmptyString => (EmptyString, EmptyString)
  | String c r =>
      if is_digit c then (String c (fst (span_digits r)), snd (span_digits r))
      else (EmptyString, s)
  end.

Definition starts_nondigit (t : string) : Prop :=
  match t with
  | EmptyString => True
  | String c _ => is_digit c = false
  end.

(** The names the two pyramid loops give to the layers of one stage that
    goes from depth [a] to depth [b]. *)
Definition conv_name (a b : Z) : string :=
  "pyramid_" +:+ str a +:+ "-" +:+ str b +:+ "_conv".
Definition batchnorm_name (b : Z) : string :=
  "pyramid_" +:+ str b +:+ "_batchnorm".
Definition relu_name (b : Z) : string :=
  "pyramid_" +:+ str b +:+ "_relu".

Definition stage_names (a b : Z) : list string :=
  [conv_name a b; batchnorm_name b; relu_name b].

(** The layers of stage [i] of the encoder and of the decoder. *)
Definition encoder_stage_layers (i : Z) : nn.Sequential :=
  let a := depth * 2 ^ i in
  let b := depth * 2 ^ (i + 1) in
  [(conv_name a b, nn.Conv1dLayer a b filt_size stride pad);
   (batchnorm_name b, nn.BatchNorm1dLayer b);
   (relu_name b, nn.ReLU)].

Definition decoder_stage_layers (i : Z) : nn.Sequential :=
  let a := depth * 2 ^ i in
  let b := depth * 2 ^ (i - 1) in
  [(conv_name a b, nn.ConvTranspose1dLayer a b filt_size stride pad);
   (batchnorm_name b, nn.BatchNorm1dLayer b);
   (relu_name b, nn.ReLU)].

(** The whole encoder and decoder of a model for vectors of size [2^n]. *)
Definition encoder_layers (n n_channels : Z) : nn.Sequential :=
  [("input-conv", nn.Conv1dLayer n_channels depth filt_size stride pad);
   ("input-relu", nn.ReLU)]
  ++ List.flat_map encoder_stage_layers (range (n - 3)).

Definition decoder_layers (n n_channels n_latent : Z) : nn.Sequential :=
  [("input-conv", nn.ConvTranspose1dLayer n_latent (depth * 2 ^ (n - 3)) filt_size 1 0);
   ("input-batchnorm", nn.BatchNorm1dLayer (depth * 2 ^ (n - 3)));
   ("input-relu", nn.ReLU)]
  ++ List.flat_map decoder_stage_layers (range_down (n - 3))
  ++ [("output-conv", nn.ConvTranspose1dLayer depth n_channels filt_size stride pad);
      ("output-tanh", nn.Tanh)].

(** The number of convolutions in a [Sequential]: each of them (stride 2)
    is one downsampling stage of the encoder. *)
Definition is_conv (l : string * nn.Layer) : bool :=
  match snd l with
  | nn.Conv1dLayer _ _ _ _ _ => true
  | _ => false
  end.

Definition count_convs (s : nn.Sequential) : nat := length (List.filter is_conv s).

(** The order of [sorted]. *)
Definition string_le (a b : string) : Prop := String.leb a b = true.

(** Sizes of the form [2^k]. *)
Definition power_of_two (size : Z) : Prop := exists k, 0 <= k /\ size = 2 ^ k.

(** The number of elements of a shape, and tensors that carry that many. *)
Definition numel (s : shape) : Z := List.fold_right Z.mul 1 s.

Definition well_formed (t : torch.Tensor) : Prop :=
  Z.of_nat (length (torch.data t)) = numel (torch.shape_of t).

(** The tensors [generate] creates from [logvar] (the tensor [tl]) and
    [mu] (the tensor [tm]) in the state [st], in the order of their
    creation: [0.5 * logvar], [std], the noise [gen], and the product
    [gen.mul(std)] once [mu] has been added to it. *)
Definition half_t (tl : torch.Tensor) : torch.Tensor :=
  {| torch.shape_of := torch.shape_of tl;
     torch.data := List.map (Rmult 0.5) (torch.data tl) |}.
Definition std_t (tl : torch.Tensor) : torch.Tensor :=
  {| torch.shape_of := torch.shape_of tl;
     torch.data := List.map exp (torch.data (half_t tl)) |}.
Definition eps_t (st : torch.State) (tl : torch.Tensor) : torch.Tensor :=
  {| torch.shape_of := torch.shape_of tl;
     torch.data :=
       List.map (torch.rng st) (List.seq 0 (length (torch.data (std_t tl)))) |}.
Definition prod_t (st : torch.State) (tl : torch.Tensor) : torch.Tensor :=
  {| torch.shape_of := torch.shape_of tl;
     torch.data := zip_with Rmult (torch.data (eps_t st tl)) (torch.data (std_t tl)) |}.
Definition gen_t (st : torch.State) (tl tm : torch.Tensor) : torch.Tensor :=
  {| torch.shape_of := torch.shape_of tl;
     torch.data := zip_with Rplus (torch.data (prod_t st tl)) (torch.data tm) |}.

(** The state [generate] leaves behind. *)
Definition generate_final (st : torch.State) (tl tm : torch.Tensor) : torch.State :=
  {| torch.heap := torch.heap st ++ [half_t tl; std_t tl; eps_t st tl; gen_t st tl tm];
     torch.rng := (fun i => torch.rng st (i + length (torch.data (std_t tl)))%nat);
     torch.written := torch.written st ++ [(length (torch.heap st) + 3)%nat] |}.

(** The model for one-channel vectors of size 8 with the default latent
    size, and a store with a [mu] and a [logvar] of shape [(1, 1, 1)] whose
    generator hands out the deviate 2. *)
Definition model_8 : VAE1D.Self :=
  {| VAE1D.n_latent := 100;
     VAE1D.encoder := encoder_layers 3 1;
     VAE1D.conv_mu := nn.Conv1dLayer 64 100 4 1 0;
     VAE1D.conv_logvar := nn.Conv1dLayer 64 100 4 1 0;
     VAE1D.decoder := decoder_layers 3 1 100 |}.

Definition store_2 : torch.State :=
  {| torch.heap := [ {| torch.shape_of := [1; 1; 1]; torch.data := [1%R] |};
                     {| torch.shape_of := [1; 1; 1]; torch.data := [0%R] |} ];
     torch.rng := (fun _ => 2%R);
     torch.written := [] |}.

(** The two terms of the loss for one sample, as the specification words
    them: half the sum of the squared differences between the sample and
    its reconstruction, and the sum over the latent dimensions of
    [0.5 * (exp(logvar) + mu^2 - logvar - 1)]. *)
Definition spec_reconstruction_term (sample reconstruction : list (list R)) : R :=
  (VAE1DLoss.sum
     (List.concat (zip_with (zip_with (fun x y => (x - y) ^ 2)) sample reconstruction))
   / 2)%R.

Definition spec_KL_term (mu logvar : list R) : R :=
  VAE1DLoss.sum (zip_with (fun m l => 0.5 * (exp l + m ^ 2 - l - 1))%R mu logvar).

(** A directory with one class that holds two samples, and the dataset
    built over it. *)
Definition two_samples : os.tree :=
  [("a", os.Dir [("s1.npy", Some [[2; 2; 2; 2]%R]); ("s2.npy", Some [[4; 4; 4; 4]%R])])].

Definition two_samples_ds : TransientDataset.Self :=
  {| TransientDataset.path := [];
     TransientDataset.mu := [0%R];
     TransientDataset.sigma := [2%R];
     TransientDataset.classes := ["a"];
     TransientDataset.names := [["s1.npy"; "s2.npy"]];
     TransientDataset.targets := [[0; 0]] |}.

(* ================================================================== *)
(** * The embedding on concrete inputs                                 *)
(* ================================================================== *)

Example str_128 : str 128 = "128".
Proof. reflexivity. Qed.

Example range_3 : range 3 = [0; 1; 2] /\ range_down 3 = [3; 2; 1] /\ range 0 = [].
Proof. repeat split. Qed.

Example getitem_from_the_end : getitem ["a"; "b"; "c"] (-1) = Ok "c".
Proof. reflexivity. Qed.

Example getitem_out_of_range :
  getitem ["a"; "b"; "c"] 3 = Raise (IndexError "list index out of range").
Proof. reflexivity. Qed.

Example sorted_classes : sorted ["normal"; "fault_b"; "fault_a"] = ["fault_a"; "fault_b"; "normal"].
Proof. reflexivity. Qed.

Example last_chars_npy : last_chars 4 "s1.npy" = ".npy" /\ last_chars 4 "s1" = "s1".
Proof. split; reflexivity. Qed.

Example squeeze_last_1 : squeeze_last [5; 100; 1] = [5; 100] /\ squeeze_last [5; 64; 4] = [5; 64; 4].
Proof. split; reflexivity. Qed.

Example add_module_overwrites :
  nn.add_module [("a", nn.ReLU); ("b", nn.ReLU)] "a" nn.Tanh
  = [("a", nn.Tanh); ("b", nn.ReLU)].
Proof. reflexivity. Qed.

(** [VAE1D(32, 3)]: two pyramid stages on each side. *)
Example model_32 :
  VAE1D.__init__ 32 3 None
  = Ok {| VAE1D.n_latent := 100;
          VAE1D.encoder :=
            [("input-conv", nn.Conv1dLayer 3 64 4 2 1);
             ("input-relu", nn.ReLU);
             ("pyramid_64-128_conv", nn.Conv1dLayer 64 128 4 2 1);
             ("pyramid_128_batchnorm", nn.BatchNorm1dLayer 128);
             ("pyramid_128_relu", nn.ReLU);
             ("pyramid_128-256_conv", nn.Conv1dLayer 128 256 4 2 1);
             ("pyramid_256_batchnorm", nn.BatchNorm1dLayer 256);
             ("pyramid_256_relu", nn.ReLU)];
          VAE1D.conv_mu := nn.Conv1dLayer 256 100 4 1 0;
          VAE1D.conv_logvar := nn.Conv1dLayer 256 100 4 1 0;
          VAE1D.decoder :=
            [("input-conv", nn.ConvTranspose1dLayer 100 256 4 1 0);
             ("input-batchnorm", nn.BatchNorm1dLayer 256);
             ("input-relu", nn.ReLU);
             ("pyramid_256-128_conv", nn.ConvTranspose1dLayer 256 128 4 2 1);
             ("pyramid_128_batchnorm", nn.BatchNorm1dLayer 128);
             ("pyramid_128_relu", nn.ReLU);
             ("pyramid_128-64_conv", nn.ConvTranspose1dLayer 128 64 4 2 1);
             ("pyramid_64_batchnorm", nn.BatchNorm1dLayer 64);
             ("pyramid_64_relu", nn.ReLU);
             ("output-conv", nn.ConvTranspose1dLayer 64 3 4 2 1);
             ("output-tanh", nn.Tanh)] |}.
Proof. vm_compute. reflexivity. Qed.

Example model_32_shapes :
  (m ← VAE1D.__init__ 32 3 None; VAE1D.encoder_output m [5; 3; 32]) = Ok [5; 256; 4]
  /\ (m ← VAE1D.__init__ 32 3 None; VAE1D.encode m [5; 3; 32])
     = Ok ([5; 100; 1], [5; 100; 1])
  /\ (m ← VAE1D.__init__ 32 3 None; VAE1D.decode m [5; 100; 1]) = Ok [5; 3; 32].
Proof. repeat split; vm_compute; reflexivity. Qed.

Example sizes_refused :
  VAE1D.__init__ 12 3 None = Raise (AssertionError "Vector size must be a power of 2")
  /\ VAE1D.__init__ 4 3 None = Raise (AssertionError "Vector size must be at least 8")
  /\ VAE1D.__init__ 0 3 None = Raise (ValueError "math domain error").
Proof. repeat split; vm_compute; reflexivity. Qed.

Example log2_values :
  math.log2 8 = Ok {| math.floor := 3; math.exact := true |}
  /\ math.log2 12 = Ok {| math.floor := 3; math.exact := false |}
  /\ math.log2 (2 ^ 40) = Ok {| math.floor := 40; math.exact := true |}
  /\ math.log2 (-8) = Raise (ValueError "math domain error").
Proof. repeat split; vm_compute; reflexivity. Qed.

(* ================================================================== *)
(** * Layer names                                                      *)
(* ================================================================== *)

Section Names.

Lemma span_digits_uint (d : Decimal.uint) (t : string) :
  starts_nondigit t ->
  span_digits (NilEmpty.string_of_uint d +:+ t) = (NilEmpty.string_of_uint d, t).
Proof.
  intros Ht. induction d; simpl; try (rewrite IHd; reflexivity).
  destruct t as [|c r]; simpl in *; [reflexivity|]. now rewrite Ht.
Qed.

Lemma str_pos (a : Z) :
  0 < a -> exists d, str a = NilEmpty.string_of_uint d.
Proof.
  intros Ha. destruct a as [|p|p]; try lia.
  exists (Pos.to_uint p). reflexivity.
Qed.

Lemma str_inj (a b : Z) : str a = str b -> a = b.
Proof.
  unfold str. intros H.
  apply (f_equal NilEmpty.int_of_string) in H.
  rewrite !NilEmpty.isi in H. injection H as H.
  now apply DecimalZ.to_int_inj.
Qed.

Lemma span_digits_str (a : Z) (t : string) :
  0 < a -> starts_nondigit t -> span_digits (str a +:+ t) = (str a, t).
Proof.
  intros Ha Ht. destruct (str_pos a Ha) as [d ->].
  now apply span_digits_uint.
Qed.

Lemma pyramid_name_inj (a a' : Z) (t t' : string) :
  0 < a -> 0 < a' -> starts_nondigit t -> starts_nondigit t' ->
  "pyramid_" +:+ str a +:+ t = "pyramid_" +:+ str a' +:+ t' ->
  a = a' /\ t = t'.
Proof.
  intros Ha Ha' Ht Ht' H. cbn [String.append] in H.
  injection H as H.
  apply (f_equal span_digits) in H.
  change (span_digits (str a +:+ t) = span_digits (str a' +:+ t')) in H.
  rewrite !span_digits_str in H by assumption.
  injection H as H1 H2. split; [now apply str_inj | assumption].
Qed.

End Names.

(* ================================================================== *)
(** * What the constructor of VAE1D builds                             *)
(* ================================================================== *)

Ltac names_eq H :=
  unfold conv_name, batchnorm_name, relu_name in H;
  apply pyramid_name_inj in H;
  [ destruct H as [? H]; try discriminate H
  | try lia | try lia | exact eq_refl | exact eq_refl ].

Section Construction.

Lemma add_module_fresh (s : nn.Sequential) (name : string) (m : nn.Layer) :
  ~ In name (List.map fst s) -> nn.add_module s name m = s ++ [(name, m)].
Proof.
  induction s as [|[k v] s IH]; simpl; intros Hn; [reflexivity|].
  destruct (String.eqb k name) eqn:E.
  - apply String.eqb_eq in E. tauto.
  - rewrite IH; [reflexivity | tauto].
Qed.

Lemma stage_names_NoDup (a b : Z) : 0 < a -> 0 < b -> List.NoDup (stage_names a b).
Proof.
  intros Ha Hb. unfold stage_names.
  repeat constructor; simpl; intros H;
    repeat (destruct H as [H|H]; [names_eq H|]); try contradiction.
Qed.

Lemma stage_names_disjoint (a b a' b' : Z) (x : string) :
  0 < a -> 0 < b -> 0 < a' -> 0 < b' -> a <> a' -> b <> b' ->
  In x (stage_names a b) -> In x (stage_names a' b') -> False.
Proof.
  intros Ha Hb Ha' Hb' Hna Hnb H1 H2. unfold stage_names in *. simpl in *.
  repeat (destruct H1 as [H1|H1]; [|]); try contradiction; subst x;
    repeat (destruct H2 as [H2|H2]; [names_eq H2; congruence|]);
    contradiction.
Qed.

Lemma stage_names_head (a b : Z) (x : string) :
  In x (stage_names a b) -> exists r, x = String "p" r.
Proof.
  unfold stage_names, conv_name, batchnorm_name, relu_name. simpl.
  intros [<-|[<-|[<-|[]]]]; eexists; reflexivity.
Qed.

Lemma add_stage (s : nn.Sequential) (a b : Z) (l1 l2 l3 : nn.Layer) :
  0 < a -> 0 < b ->
  (forall x, In x (stage_names a b) -> ~ In x (List.map fst s)) ->
  nn.add_module
    (nn.add_module (nn.add_module s (conv_name a b) l1) (batchnorm_name b) l2)
    (relu_name b) l3
  = s ++ [(conv_name a b, l1); (batchnorm_name b, l2); (relu_name b, l3)].
Proof.
  intros Ha Hb Hs.
  pose proof (stage_names_NoDup a b Ha Hb) as Hd.
  unfold stage_names in Hd, Hs.
  inversion Hd as [|? ? H1 Hd']; subst. inversion Hd' as [|? ? H2 _]; subst.
  simpl in H1, H2.
  rewrite (add_module_fresh s) by (apply Hs; simpl; tauto).
  rewrite (add_module_fresh (s ++ _) (batchnorm_name b)).
  2:{ rewrite List.map_app, in_app_iff. simpl.
      intros [H|[H|[]]]; [revert H; apply Hs; simpl; tauto | apply H1; auto]. }
  rewrite add_module_fresh.
  2:{ rewrite !List.map_app, !in_app_iff. simpl.
      intros [[H|[H|[]]]|[H|[]]];
        [revert H; apply Hs; simpl; tauto | apply H1; auto | apply H2; auto]. }
  rewrite <- !app_assoc. reflexivity.
Qed.

Lemma depth_pow_pos (i : Z) : 0 <= i -> 0 < depth * 2 ^ i.
Proof. intros Hi. unfold depth. pose proof (Z.pow_pos_nonneg 2 i). lia. Qed.

Lemma depth_pow_inj (i j : Z) :
  0 <= i -> 0 <= j -> depth * 2 ^ i = depth * 2 ^ j -> i = j.
Proof.
  intros Hi Hj H. unfold depth in H.
  apply (Z.pow_inj_r 2); lia.
Qed.

Lemma encoder_stage_ok (s : nn.Sequential) (i : Z) :
  0 <= i ->
  (forall x, In x (List.map fst (encoder_stage_layers i)) -> ~ In x (List.map fst s)) ->
  VAE1D.encoder_stage s i = Ok (s ++ encoder_stage_layers i).
Proof.
  intros Hi Hs.
  pose proof (depth_pow_pos i Hi). pose proof (depth_pow_pos (i + 1) ltac:(lia)).
  unfold VAE1D.encoder_stage, nn.Conv1d, nn.BatchNorm1d.
  rewrite !(proj2 (Z.ltb_ge _ 0)) by lia. simpl orb. cbn [mbind result_bind Py.bind].
  f_equal. apply add_stage; assumption.
Qed.

Lemma decoder_stage_ok (s : nn.Sequential) (i : Z) :
  1 <= i ->
  (forall x, In x (List.map fst (decoder_stage_layers i)) -> ~ In x (List.map fst s)) ->
  VAE1D.decoder_stage s i = Ok (s ++ decoder_stage_layers i).
Proof.
  intros Hi Hs.
  pose proof (depth_pow_pos i ltac:(lia)). pose proof (depth_pow_pos (i - 1) ltac:(lia)).
  unfold VAE1D.decoder_stage, nn.ConvTranspose1d, nn.BatchNorm1d.
  rewrite !(proj2 (Z.ltb_ge _ 0)) by lia. simpl orb. cbn [mbind result_bind Py.bind].
  f_equal. apply add_stage; assumption.
Qed.

Lemma encoder_stages_disjoint (i j : Z) (x : string) :
  0 <= i -> 0 <= j -> i <> j ->
  In x (List.map fst (encoder_stage_layers i)) ->
  In x (List.map fst (encoder_stage_layers j)) -> False.
Proof.
  intros Hi Hj Hij.
  apply stage_names_disjoint; try (apply depth_pow_pos; lia);
    intros H; apply depth_pow_inj in H; lia.
Qed.

Lemma decoder_stages_disjoint (i j : Z) (x : string) :
  1 <= i -> 1 <= j -> i <> j ->
  In x (List.map fst (decoder_stage_layers i)) ->
  In x (List.map fst (decoder_stage_layers j)) -> False.
Proof.
  intros Hi Hj Hij.
  apply stage_names_disjoint; try (apply depth_pow_pos; lia);
    intros H; apply depth_pow_inj in H; lia.
Qed.

(** The encoder loop appends the layers of its stages, one after the
    other: no name is used twice. *)
Lemma encoder_loop (l : list Z) (s : nn.Sequential) :
  (forall i, In i l -> 0 <= i) -> List.NoDup l ->
  (forall i x, In i l -> In x (List.map fst (encoder_stage_layers i)) ->
               ~ In x (List.map fst s)) ->
  for_each l VAE1D.encoder_stage s = Ok (s ++ List.flat_map encoder_stage_layers l).
Proof.
  revert s. induction l as [|i l IH]; intros s Hpos Hnd Hs; simpl.
  - now rewrite app_nil_r.
  - inversion Hnd as [|? ? Hi Hnd']; subst.
    rewrite encoder_stage_ok;
      [| apply Hpos; simpl; auto | intros x Hx; apply (Hs i); simpl; auto].
    cbn [for_each].
    rewrite IH, <- app_assoc; try reflexivity; try assumption.
    + intros j Hj. apply Hpos. now right.
    + intros j x Hj Hx. rewrite List.map_app, in_app_iff. intros [H|H].
      * revert H. apply (Hs j); simpl; auto.
      * apply (encoder_stages_disjoint i j x); try (apply Hpos; simpl; auto);
          try assumption. intros ->. contradiction.
Qed.

Lemma decoder_loop (l : list Z) (s : nn.Sequential) :
  (forall i, In i l -> 1 <= i) -> List.NoDup l ->
  (forall i x, In i l -> In x (List.map fst (decoder_stage_layers i)) ->
               ~ In x (List.map fst s)) ->
  for_each l VAE1D.decoder_stage s = Ok (s ++ List.flat_map decoder_stage_layers l).
Proof.
  revert s. induction l as [|i l IH]; intros s Hpos Hnd Hs; simpl.
  - now rewrite app_nil_r.
  - inversion Hnd as [|? ? Hi Hnd']; subst.
    rewrite decoder_stage_ok;
      [| apply Hpos; simpl; auto | intros x Hx; apply (Hs i); simpl; auto].
    cbn [for_each].
    rewrite IH, <- app_assoc; try reflexivity; try assumption.
    + intros j Hj. apply Hpos. now right.
    + intros j x Hj Hx. rewrite List.map_app, in_app_iff. intros [H|H].
      * revert H. apply (Hs j); simpl; auto.
      * apply (decoder_stages_disjoint i j x); try (apply Hpos; simpl; auto);
          try assumption. intros ->. contradiction.
Qed.

End Construction.

Lemma bind_Ok {A B} (a : A) (k : A -> result B) : (Ok a ≫= k) = k a.
Proof. reflexivity. Qed.

Section Ranges.

Lemma in_range (k i : Z) : In i (range k) <-> 0 <= i < k.
Proof.
  unfold range. rewrite in_map_iff. split.
  - intros (j & <- & Hj). apply in_seq in Hj. lia.
  - intros Hi. exists (Z.to_nat i). split; [lia|]. apply in_seq. lia.
Qed.

Lemma NoDup_range (k : Z) : List.NoDup (range k).
Proof.
  unfold range. apply Finite.Injective_map_NoDup.
  - intros x y. lia.
  - apply seq_NoDup.
Qed.

Lemma in_range_down (k i : Z) : In i (range_down k) <-> 1 <= i <= k.
Proof.
  unfold range_down. rewrite <- in_rev, in_map_iff. split.
  - intros (j & <- & Hj). apply in_seq in Hj. lia.
  - intros Hi. exists (Z.to_nat i). split; [lia|]. apply in_seq. lia.
Qed.

Lemma NoDup_range_down (k : Z) : List.NoDup (range_down k).
Proof.
  unfold range_down. apply NoDup_rev, Finite.Injective_map_NoDup.
  - intros x y. lia.
  - apply seq_NoDup.
Qed.

End Ranges.

Section Built.

Variables n n_channels n_latent : Z.
Hypothesis Hn : 3 <= n.
Hypothesis Hc : 0 <= n_channels.
Hypothesis Hl : 0 <= n_latent.

Lemma log2_pow2 :
  math.log2 (2 ^ n) = Ok {| math.floor := n; math.exact := true |}.
Proof.
  unfold math.log2. pose proof (Z.pow_pos_nonneg 2 n).
  rewrite (proj2 (Z.leb_gt _ _)) by lia.
  rewrite Z.log2_pow2 by lia. now rewrite Z.eqb_refl.
Qed.

Lemma stages_head (f : Z -> nn.Sequential) (l : list Z) (x : string) :
  (forall i y, In y (List.map fst (f i)) -> exists r, y = String "p" r) ->
  In x (List.map fst (List.flat_map f l)) -> exists r, x = String "p" r.
Proof.
  intros Hf Hx. apply in_map_iff in Hx as ([k v] & <- & Hkv).
  apply in_flat_map in Hkv as (i & _ & Hi).
  apply (Hf i). apply in_map_iff. now exists (k, v).
Qed.

Lemma encoder_built :
  for_each (range (n - 3)) VAE1D.encoder_stage
    [("input-conv", nn.Conv1dLayer n_channels depth filt_size stride pad);
     ("input-relu", nn.ReLU)]
  = Ok (encoder_layers n n_channels).
Proof.
  unfold encoder_layers. apply encoder_loop.
  - intros i Hi. apply in_range in Hi. lia.
  - apply NoDup_range.
  - intros i x _ Hx. apply stage_names_head in Hx as [r ->]. simpl.
    intros [H|[H|[]]]; discriminate H.
Qed.

Lemma decoder_built :
  nn.add_module
    (nn.add_module
       (match
          for_each (range_down (n - 3)) VAE1D.decoder_stage
            [("input-conv",
              nn.ConvTranspose1dLayer n_latent (depth * 2 ^ (n - 3)) filt_size 1 0);
             ("input-batchnorm", nn.BatchNorm1dLayer (depth * 2 ^ (n - 3)));
             ("input-relu", nn.ReLU)]
        with
        | Ok d => d
        | Raise _ => []
        end)
       "output-conv" (nn.ConvTranspose1dLayer depth n_channels filt_size stride pad))
    "output-tanh" nn.Tanh
  = decoder_layers n n_channels n_latent
  /\ for_each (range_down (n - 3)) VAE1D.decoder_stage
       [("input-conv",
         nn.ConvTranspose1dLayer n_latent (depth * 2 ^ (n - 3)) filt_size 1 0);
        ("input-batchnorm", nn.BatchNorm1dLayer (depth * 2 ^ (n - 3)));
        ("input-relu", nn.ReLU)]
     = Ok ([("input-conv",
             nn.ConvTranspose1dLayer n_latent (depth * 2 ^ (n - 3)) filt_size 1 0);
            ("input-batchnorm", nn.BatchNorm1dLayer (depth * 2 ^ (n - 3)));
            ("input-relu", nn.ReLU)]
           ++ List.flat_map decoder_stage_layers (range_down (n - 3))).
Proof.
  assert (Hloop : for_each (range_down (n - 3)) VAE1D.decoder_stage
       [("input-conv",
         nn.ConvTranspose1dLayer n_latent (depth * 2 ^ (n - 3)) filt_size 1 0);
        ("input-batchnorm", nn.BatchNorm1dLayer (depth * 2 ^ (n - 3)));
        ("input-relu", nn.ReLU)]
     = Ok ([("input-conv",
             nn.ConvTranspose1dLayer n_latent (depth * 2 ^ (n - 3)) filt_size 1 0);
            ("input-batchnorm", nn.BatchNorm1dLayer (depth * 2 ^ (n - 3)));
            ("input-relu", nn.ReLU)]
           ++ List.flat_map decoder_stage_layers (range_down (n - 3)))).
  { apply decoder_loop.
    - intros i Hi. apply in_range_down in Hi. lia.
    - apply NoDup_range_down.
    - intros i x _ Hx. apply stage_names_head in Hx as [r ->]. simpl.
      intros [H|[H|[H|[]]]]; discriminate H. }
  split; [|exact Hloop]. rewrite Hloop. unfold decoder_layers.
  assert (Hp : forall x, In x (List.map fst
              (List.flat_map decoder_stage_layers (range_down (n - 3)))) ->
            exists r, x = String "p" r).
  { intros x. apply stages_head. intros i y. apply stage_names_head. }
  rewrite (add_module_fresh _ "output-conv").
  2:{ rewrite List.map_app, in_app_iff. simpl.
      intros [[H|[H|[H|[]]]]|H]; try discriminate H.
      apply Hp in H as [r H]. discriminate H. }
  rewrite (add_module_fresh _ "output-tanh").
  2:{ rewrite !List.map_app, !in_app_iff. simpl.
      intros [[[H|[H|[H|[]]]]|H]|[H|[]]]; try discriminate H.
      apply Hp in H as [r H]. discriminate H. }
  rewrite <- !app_assoc. reflexivity.
Qed.

(** The constructor succeeds on a power of two from 8 on, and this is
    the model it returns. *)
Lemma init_built :
  VAE1D.__init__ (2 ^ n) n_channels (Some n_latent)
  = Ok {| VAE1D.n_latent := n_latent;
          VAE1D.encoder := encoder_layers n n_channels;
          VAE1D.conv_mu := nn.Conv1dLayer (depth * 2 ^ (n - 3)) n_latent filt_size 1 0;
          VAE1D.conv_logvar := nn.Conv1dLayer (depth * 2 ^ (n - 3)) n_latent filt_size 1 0;
          VAE1D.decoder := decoder_layers n n_channels n_latent |}.
Proof.
  pose proof (depth_pow_pos (n - 3) ltac:(lia)) as Hd.
  destruct decoder_built as [Hdec Hloop].
  unfold VAE1D.__init__. rewrite log2_pow2, bind_Ok.
  unfold math.is_round, math.ge, math.int, math.exact, math.floor, assert.
  rewrite (proj2 (Z.leb_le 3 n)), !bind_Ok by lia.
  change (default 100 (Some n_latent)) with n_latent.
  unfold nn.Conv1d, nn.ConvTranspose1d, nn.BatchNorm1d.
  rewrite !(proj2 (Z.ltb_ge _ 0)) by (unfold depth; lia).
  cbn [orb]. rewrite bind_Ok.
  change (nn.add_module
            (nn.add_module nn.new_Sequential "input-conv"
               (nn.Conv1dLayer n_channels depth filt_size stride pad))
            "input-relu" nn.ReLU)
    with [("input-conv", nn.Conv1dLayer n_channels depth filt_size stride pad);
          ("input-relu", nn.ReLU)].
  rewrite encoder_built, !bind_Ok.
  change (nn.add_module
            (nn.add_module
               (nn.add_module nn.new_Sequential "input-conv"
                  (nn.ConvTranspose1dLayer n_latent (depth * 2 ^ (n - 3)) filt_size 1 0))
               "input-batchnorm" (nn.BatchNorm1dLayer (depth * 2 ^ (n - 3))))
            "input-relu" nn.ReLU)
    with [("input-conv",
           nn.ConvTranspose1dLayer n_latent (depth * 2 ^ (n - 3)) filt_size 1 0);
          ("input-batchnorm", nn.BatchNorm1dLayer (depth * 2 ^ (n - 3)));
          ("input-relu", nn.ReLU)].
  rewrite Hloop in Hdec |- *. rewrite !bind_Ok.
  rewrite Hdec. reflexivity.
Qed.

End Built.

(* ================================================================== *)
(** * Shapes through the pyramids                                      *)
(* ================================================================== *)

Section Shapes.

Lemma for_each_app {A B} (l1 l2 : list A) (body : B -> A -> result B) (b : B) :
  for_each (l1 ++ l2) body b
  = match for_each l1 body b with
    | Ok b' => for_each l2 body b'
    | Raise e => Raise e
    end.
Proof.
  revert b. induction l1 as [|a l1 IH]; intros b; simpl; [reflexivity|].
  destruct (body b a); [apply IH | reflexivity].
Qed.

Lemma Sequential_forward_app (s1 s2 : nn.Sequential) (x : shape) :
  nn.Sequential_forward (s1 ++ s2) x
  = match nn.Sequential_forward s1 x with
    | Ok y => nn.Sequential_forward s2 y
    | Raise e => Raise e
    end.
Proof. apply for_each_app. Qed.

Variable b : Z.
Hypothesis Hb : 1 <= b.

(** A convolution of the pyramid (kernel 4, stride 2, padding 1) halves
    an even length. *)
Lemma conv_halves (cin cout h : Z) :
  1 <= h ->
  nn.forward (nn.Conv1dLayer cin cout filt_size stride pad) [b; cin; 2 * h]
  = Ok [b; cout; h].
Proof.
  intros Hh. unfold nn.forward, filt_size, stride, pad.
  rewrite Z.eqb_refl. cbn [negb].
  rewrite (proj2 (Z.ltb_ge _ _)) by lia.
  replace (2 * h + 2 * 1 - (4 - 1) - 1) with ((h - 1) * 2) by lia.
  rewrite Z.div_mul by lia.
  replace (h - 1 + 1) with h by lia. reflexivity.
Qed.

(** A transposed convolution of the pyramid doubles the length. *)
Lemma conv_transpose_doubles (cin cout l : Z) :
  1 <= l ->
  nn.forward (nn.ConvTranspose1dLayer cin cout filt_size stride pad) [b; cin; l]
  = Ok [b; cout; 2 * l].
Proof.
  intros Hl. unfold nn.forward, filt_size, stride, pad.
  rewrite Z.eqb_refl. cbn [negb].
  rewrite (proj2 (Z.ltb_ge _ _)) by lia.
  replace ((l - 1) * 2 - 2 * 1 + (4 - 1) + 1) with (2 * l) by lia. reflexivity.
Qed.

Lemma batchnorm_keeps (c l : Z) :
  2 <= l -> nn.forward (nn.BatchNorm1dLayer c) [b; c; l] = Ok [b; c; l].
Proof.
  intros Hl. unfold nn.forward. rewrite Z.eqb_refl. cbn [negb].
  rewrite (proj2 (Z.eqb_neq _ _)) by nia. reflexivity.
Qed.

Lemma encoder_stage_shape (i h : Z) :
  2 <= h ->
  nn.Sequential_forward (encoder_stage_layers i) [b; depth * 2 ^ i; 2 * h]
  = Ok [b; depth * 2 ^ (i + 1); h].
Proof.
  intros Hh. unfold encoder_stage_layers, nn.Sequential_forward.
  cbn [for_each]. rewrite conv_halves by lia. rewrite batchnorm_keeps by lia.
  reflexivity.
Qed.

Lemma decoder_stage_shape (i l : Z) :
  1 <= l ->
  nn.Sequential_forward (decoder_stage_layers i) [b; depth * 2 ^ i; l]
  = Ok [b; depth * 2 ^ (i - 1); 2 * l].
Proof.
  intros Hl. unfold decoder_stage_layers, nn.Sequential_forward.
  cbn [for_each]. rewrite conv_transpose_doubles by lia.
  rewrite batchnorm_keeps by lia. reflexivity.
Qed.

(** [k] encoder stages starting at stage [j] bring the length
    [4 * 2^k] down to 4. *)
Lemma encoder_stages_shape (k j : nat) :
  nn.Sequential_forward
    (List.flat_map encoder_stage_layers (List.map Z.of_nat (List.seq j k)))
    [b; depth * 2 ^ Z.of_nat j; 4 * 2 ^ Z.of_nat k]
  = Ok [b; depth * 2 ^ Z.of_nat (j + k); 4].
Proof.
  revert j. induction k as [|k IH]; intros j.
  - simpl. rewrite Nat.add_0_r. reflexivity.
  - cbn [List.seq List.map List.flat_map].
    rewrite Sequential_forward_app.
    replace (4 * 2 ^ Z.of_nat (S k)) with (2 * (4 * 2 ^ Z.of_nat k))
      by (rewrite Nat2Z.inj_succ, Z.pow_succ_r; lia).
    rewrite encoder_stage_shape by (pose proof (Z.pow_pos_nonneg 2 (Z.of_nat k)); lia).
    replace (Z.of_nat j + 1) with (Z.of_nat (S j)) by lia.
    rewrite IH. replace (S j + k)%nat with (j + S k)%nat by lia. reflexivity.
Qed.

(** The decoder stages [k, k-1, ..., 1] multiply the length by [2^k]. *)
Lemma decoder_stages_shape (k : nat) (l : Z) :
  1 <= l ->
  nn.Sequential_forward
    (List.flat_map decoder_stage_layers
       (List.rev (List.map Z.of_nat (List.seq 1 k))))
    [b; depth * 2 ^ Z.of_nat k; l]
  = Ok [b; depth; l * 2 ^ Z.of_nat k].
Proof.
  revert l. induction k as [|k IH]; intros l Hl.
  - cbn [List.seq List.map List.rev List.flat_map].
    unfold nn.Sequential_forward. cbn [for_each].
    change (Z.of_nat 0) with 0. rewrite Z.pow_0_r, !Z.mul_1_r. reflexivity.
  - rewrite seq_S, List.map_app, rev_app_distr.
    cbn [List.map List.rev List.app List.flat_map Nat.add].
    rewrite Sequential_forward_app.
    rewrite decoder_stage_shape by lia.
    replace (Z.of_nat (S k) - 1) with (Z.of_nat k) by lia.
    rewrite IH by lia.
    replace (2 * l * 2 ^ Z.of_nat k) with (l * 2 ^ Z.of_nat (S k))
      by (rewrite Nat2Z.inj_succ, Z.pow_succ_r; lia).
    reflexivity.
Qed.

Variables n n_channels n_latent : Z.
Hypothesis Hn : 3 <= n.

Lemma pow2_split : 2 ^ n = 2 * (4 * 2 ^ Z.of_nat (Z.to_nat (n - 3))).
Proof.
  rewrite Z2Nat.id by lia.
  replace n with (1 + (2 + (n - 3))) at 1 by lia.
  rewrite !Z.pow_add_r by lia. lia.
Qed.

(** The encoder pyramid brings a vector of size [2^n] down to length 4,
    with [depth * 2^(n-3)] channels. *)
Lemma encoder_shape :
  nn.Sequential_forward (encoder_layers n n_channels) [b; n_channels; 2 ^ n]
  = Ok [b; depth * 2 ^ (n - 3); 4].
Proof.
  unfold encoder_layers. rewrite Sequential_forward_app.
  unfold nn.Sequential_forward at 1. cbn [for_each].
  pose proof (Z.pow_pos_nonneg 2 (Z.of_nat (Z.to_nat (n - 3)))).
  rewrite pow2_split, conv_halves by lia. cbn [nn.forward].
  unfold range.
  replace depth with (depth * 2 ^ Z.of_nat 0) at 1 by (simpl; lia).
  rewrite encoder_stages_shape.
  replace (Z.of_nat (0 + Z.to_nat (n - 3))) with (n - 3) by lia. reflexivity.
Qed.

(** The encoder has [n - 2] downsampling stages. *)
Lemma encoder_downsampling_stages :
  Z.of_nat (count_convs (encoder_layers n n_channels)) = n - 2.
Proof.
  unfold encoder_layers, count_convs, range.
  rewrite List.filter_app, length_app. cbn [List.filter is_conv snd length].
  assert (H : forall j k,
             length (List.filter is_conv
                       (List.flat_map encoder_stage_layers
                          (List.map Z.of_nat (List.seq j k)))) = k).
  { intros j k. revert j. induction k as [|k IH]; intros j; [reflexivity|].
    cbn [List.seq List.map List.flat_map]. rewrite List.filter_app, length_app, IH.
    reflexivity. }
  rewrite H. lia.
Qed.

(** The latent heads (kernel 4, stride 1, no padding) bring length 4
    to length 1. *)
Lemma head_shape (c : Z) :
  nn.forward (nn.Conv1dLayer c n_latent filt_size 1 0) [b; c; 4]
  = Ok [b; n_latent; 1].
Proof.
  unfold nn.forward, filt_size. rewrite Z.eqb_refl. reflexivity.
Qed.

(** The decoder brings a latent code of length 1 back to size [2^n]. *)
Lemma decoder_shape :
  nn.Sequential_forward (decoder_layers n n_channels n_latent) [b; n_latent; 1]
  = Ok [b; n_channels; 2 ^ n].
Proof.
  unfold decoder_layers, range_down. rewrite pow2_split.
  set (k := Z.to_nat (n - 3)). replace (n - 3) with (Z.of_nat k) by lia.
  rewrite !Sequential_forward_app.
  unfold nn.Sequential_forward at 1. cbn [for_each].
  unfold nn.forward at 1. rewrite Z.eqb_refl. cbn [negb].
  change (1 <? 1) with false. cbn iota.
  change ((1 - 1) * 1 - 2 * 0 + (filt_size - 1) + 1) with 4.
  rewrite batchnorm_keeps by lia. cbn [nn.forward].
  rewrite Sequential_forward_app, decoder_stages_shape by lia.
  unfold nn.Sequential_forward. cbn [for_each].
  pose proof (Z.pow_pos_nonneg 2 (Z.of_nat k)).
  rewrite conv_transpose_doubles by lia. reflexivity.
Qed.

End Shapes.

(* ================================================================== *)
(** * Sizes the constructor refuses                                    *)
(* ================================================================== *)

Lemma init_rejects (size n_channels : Z) (n_latent : option Z) :
  size < 8 \/ (~ power_of_two size /\ size < 2 ^ 32) ->
  exists e, VAE1D.__init__ size n_channels n_latent = Raise e
            /\ (e = ValueError "math domain error"
                \/ e = AssertionError "Vector size must be a power of 2"
                \/ e = AssertionError "Vector size must be at least 8").
Proof.
  intros Hbad. unfold VAE1D.__init__, math.log2.
  destruct (Z.leb_spec size 0) as [Hle|Hpos].
  { eexists. split; [reflexivity | auto]. }
  destruct (Z.eqb_spec size (2 ^ Z.log2 size)) as [Heq|Hne].
  - rewrite bind_Ok. unfold math.is_round, math.exact, assert.
    rewrite bind_Ok. unfold math.ge, math.floor.
    assert (Hlt : size < 8).
    { destruct Hbad as [H|[H _]]; [exact H|]. exfalso. apply H.
      exists (Z.log2 size). split; [apply Z.log2_nonneg | exact Heq]. }
    assert (Hlog : Z.log2 size < 3) by (apply Z.log2_lt_pow2; simpl; lia).
    rewrite (proj2 (Z.leb_gt _ _)) by lia.
    eexists. split; [reflexivity | auto].
  - assert (Hlt : size < math.log2_rounding_bound).
    { unfold math.log2_rounding_bound.
      destruct Hbad as [H|[_ H]]; [|exact H].
      change (2 ^ 32) with 4294967296. lia. }
    rewrite (proj2 (Z.ltb_lt _ _) Hlt).
    eexists. split; [reflexivity | auto].
Qed.

(* ================================================================== *)
(** * generate                                                         *)
(* ================================================================== *)

Section Generate.

Import torch.

Lemma run_bind {A B} (c : M A) (k : A -> M B) (st : State) :
  (c ≫= k) st
  = match c st with
    | Ok (a, st') => k a st'
    | Raise e => Raise e
    end.
Proof. reflexivity. Qed.

Lemma read_run (st : State) (l : loc) (t : Tensor) :
  heap st !! l = Some t -> read l st = Ok (t, st).
Proof. intros H. unfold read. now rewrite H. Qed.

Lemma scalar_mul_run (st : State) (c : R) (l : loc) (t : Tensor) :
  heap st !! l = Some t ->
  scalar_mul c l st
  = Ok (length (heap st),
        {| heap := heap st ++ [{| shape_of := shape_of t;
                                  data := List.map (Rmult c) (data t) |}];
           rng := rng st; written := written st |}).
Proof. intros H. unfold scalar_mul. now rewrite run_bind, (read_run _ _ _ H). Qed.

Lemma exp_run (st : State) (l : loc) (t : Tensor) :
  heap st !! l = Some t ->
  torch.exp l st
  = Ok (length (heap st),
        {| heap := heap st ++ [{| shape_of := shape_of t;
                                  data := List.map Rtrigo_def.exp (data t) |}];
           rng := rng st; written := written st |}).
Proof. intros H. unfold torch.exp. now rewrite run_bind, (read_run _ _ _ H). Qed.

Lemma randn_like_run (st : State) (l : loc) (t : Tensor) :
  heap st !! l = Some t ->
  randn_like l st
  = Ok (length (heap st),
        {| heap := heap st ++ [{| shape_of := shape_of t;
                                  data := List.map (rng st)
                                            (List.seq 0 (length (data t))) |}];
           rng := (fun i => rng st (i + length (data t))%nat);
           written := written st |}).
Proof. intros H. unfold randn_like. now rewrite run_bind, (read_run _ _ _ H). Qed.

Lemma mul_run (st : State) (a b : loc) (x y : Tensor) :
  heap st !! a = Some x -> heap st !! b = Some y -> shape_of x = shape_of y ->
  mul a b st
  = Ok (length (heap st),
        {| heap := heap st ++ [{| shape_of := shape_of x;
                                  data := zip_with Rmult (data x) (data y) |}];
           rng := rng st; written := written st |}).
Proof.
  intros Ha Hb Hs. unfold mul.
  rewrite run_bind, (read_run _ _ _ Ha), run_bind, (read_run _ _ _ Hb).
  now rewrite decide_True.
Qed.

Lemma add__run (st : State) (a b : loc) (x y : Tensor) :
  heap st !! a = Some x -> heap st !! b = Some y -> shape_of x = shape_of y ->
  add_ a b st
  = Ok (a,
        {| heap := <[a := {| shape_of := shape_of x;
                             data := zip_with Rplus (data x) (data y) |}]> (heap st);
           rng := rng st; written := written st ++ [a] |}).
Proof.
  intros Ha Hb Hs. unfold add_.
  rewrite run_bind, (read_run _ _ _ Ha), run_bind, (read_run _ _ _ Hb).
  now rewrite decide_True.
Qed.

Variable self : VAE1D.Self.
Variables (st : State) (mu logvar : loc) (tm tl : Tensor).
Hypothesis Hmu : heap st !! mu = Some tm.
Hypothesis Hlogvar : heap st !! logvar = Some tl.
Hypothesis Hshape : shape_of tm = shape_of tl.

(** [generate] step by step: four allocations, then one write to the
    last of the four. *)
Lemma generate_run :
  VAE1D.generate self mu logvar st
  = Ok ((length (heap st) + 3)%nat, generate_final st tl tm).
Proof.
  pose proof (lookup_lt_Some _ _ _ Hmu) as Hlt.
  unfold VAE1D.generate.
  (* half = 0.5 * logvar *)
  rewrite run_bind, (scalar_mul_run _ _ _ _ Hlogvar).
  (* std = torch.exp(half) *)
  rewrite run_bind, (exp_run _ _ (half_t tl))
    by (cbn [heap]; now apply list_lookup_middle).
  cbn [heap rng written].
  (* gen = torch.randn_like(std) *)
  rewrite run_bind, (randn_like_run _ _ (std_t tl))
    by (cbn [heap]; now apply list_lookup_middle).
  cbn [heap rng written].
  (* prod = gen.mul(std) *)
  rewrite run_bind, (mul_run _ _ _ (eps_t st tl) (std_t tl));
    [ | cbn [heap]; now apply list_lookup_middle
      | cbn [heap]; rewrite lookup_app_l by (rewrite !length_app; simpl; lia);
        now apply list_lookup_middle
      | reflexivity ].
  cbn [heap rng written].
  (* prod.add_(mu) *)
  rewrite (add__run _ _ _ (prod_t st tl) tm);
    [ | cbn [heap]; now apply list_lookup_middle
      | cbn [heap]; rewrite !lookup_app_l by (rewrite ?length_app; simpl; lia);
        exact Hmu
      | symmetry; exact Hshape ].
  cbn [heap rng written]. unfold generate_final.
  f_equal. f_equal.
  - rewrite !length_app. simpl. lia.
  - f_equal.
    + rewrite insert_app_r_alt by lia.
      rewrite Nat.sub_diag. simpl. rewrite <- !app_assoc. reflexivity.
    + do 2 f_equal. rewrite !length_app. simpl. lia.
Qed.

End Generate.

(* ================================================================== *)
(** * Properties of VAE1D                                              *)
(* ================================================================== *)

Example model_8_built : VAE1D.__init__ 8 1 None = Ok model_8.
Proof. vm_compute. reflexivity. Qed.

Lemma init_succeeds (n n_channels : Z) (n_latent : option Z) :
  3 <= n -> 0 < n_channels -> 0 < default 100 n_latent ->
  VAE1D.__init__ (2 ^ n) n_channels n_latent
  = Ok {| VAE1D.n_latent := default 100 n_latent;
          VAE1D.encoder := encoder_layers n n_channels;
          VAE1D.conv_mu :=
            nn.Conv1dLayer (depth * 2 ^ (n - 3)) (default 100 n_latent) filt_size 1 0;
          VAE1D.conv_logvar :=
            nn.Conv1dLayer (depth * 2 ^ (n - 3)) (default 100 n_latent) filt_size 1 0;
          VAE1D.decoder := decoder_layers n n_channels (default 100 n_latent) |}.
Proof.
  intros Hn Hc Hl.
  rewrite <- (init_built n n_channels (default 100 n_latent)) by lia.
  destruct n_latent; reflexivity.
Qed.

Lemma encode_shape (n n_channels n_latent b : Z) (m : VAE1D.Self) :
  3 <= n -> 1 <= b ->
  VAE1D.encoder m = encoder_layers n n_channels ->
  VAE1D.conv_mu m = nn.Conv1dLayer (depth * 2 ^ (n - 3)) n_latent filt_size 1 0 ->
  VAE1D.conv_logvar m = nn.Conv1dLayer (depth * 2 ^ (n - 3)) n_latent filt_size 1 0 ->
  VAE1D.encode m [b; n_channels; 2 ^ n] = Ok ([b; n_latent; 1], [b; n_latent; 1]).
Proof.
  intros Hn Hb He Hmu Hlv. unfold VAE1D.encode.
  rewrite He, Hmu, Hlv, encoder_shape, bind_Ok by assumption.
  change (squeeze_last (squeeze_last [b; depth * 2 ^ (n - 3); 4]))
    with [b; depth * 2 ^ (n - 3); 4].
  rewrite head_shape, !bind_Ok. reflexivity.
Qed.

(** C1, as the specification states it, at size 8: the model is built and
    its encoder pyramid returns length 4, so no output of the pyramid has
    length 1 before the latent heads. *)
Lemma C1_encoder_output_is_4_at_size_8 :
  exists m, VAE1D.__init__ 8 1 None = Ok m
    /\ VAE1D.encoder_output m [1; 1; 8] = Ok [1; 64; 4]
    /\ ~ (exists b c, VAE1D.encoder_output m [1; 1; 8] = Ok [b; c; 1]).
Proof.
  exists model_8. split; [exact model_8_built|].
  assert (H : VAE1D.encoder_output model_8 [1; 1; 8] = Ok [1; 64; 4])
    by (vm_compute; reflexivity).
  split; [exact H|]. intros (b & c & H'). rewrite H in H'. discriminate H'.
Qed.

(** C1 (amended): for every size [2^n] with [n >= 3] the constructor
    succeeds; on a batch of vectors of that size the encoder pyramid
    returns [64 * 2^(n-3)] channels of length exactly 4, which [encode]
    leaves unsqueezed and which the latent heads (kernel 4) bring to
    length exactly 1, for [mu] and for [logvar]; and for every size that is
    smaller than 8, or is not a power of two and lies below [2^32], the
    constructor fails, with the domain error of [math.log2] or with one of
    its two assertions.  (Beyond that bound the rounding of [math.log2]
    decides whether the first assertion holds: [math.log2(2**49 - 1)] is
    [49.0].) *)
Theorem C1_construction_and_geometry
    (n n_channels b : Z) (n_latent : option Z)
    (size' n_channels' : Z) (n_latent' : option Z) :
  3 <= n -> 0 < n_channels -> 0 < default 100 n_latent -> 1 <= b ->
  size' < 8 \/ (~ power_of_two size' /\ size' < 2 ^ 32) ->
  (exists m, VAE1D.__init__ (2 ^ n) n_channels n_latent = Ok m
     /\ VAE1D.encoder_output m [b; n_channels; 2 ^ n]
        = Ok [b; depth * 2 ^ (n - 3); 4]
     /\ VAE1D.encode m [b; n_channels; 2 ^ n]
        = Ok ([b; default 100 n_latent; 1], [b; default 100 n_latent; 1]))
  /\ (exists e, VAE1D.__init__ size' n_channels' n_latent' = Raise e
       /\ (e = ValueError "math domain error"
           \/ e = AssertionError "Vector size must be a power of 2"
           \/ e = AssertionError "Vector size must be at least 8")).
Proof.
  intros Hn Hc Hl Hb Hbad. split.
  - eexists. split; [apply init_succeeds; assumption|]. split.
    + unfold VAE1D.encoder_output. cbn [VAE1D.encoder].
      now apply encoder_shape.
    + now apply (encode_shape n).
  - now apply init_rejects.
Qed.

Lemma C1_construction_and_geometry_witness :
  (exists m, VAE1D.__init__ (2 ^ 4) 3 None = Ok m
     /\ VAE1D.encoder_output m [5; 3; 2 ^ 4] = Ok [5; depth * 2 ^ (4 - 3); 4]
     /\ VAE1D.encode m [5; 3; 2 ^ 4]
        = Ok ([5; default 100 None; 1], [5; default 100 None; 1]))
  /\ (exists e, VAE1D.__init__ 4 (-1) (Some 0) = Raise e
       /\ (e = ValueError "math domain error"
           \/ e = AssertionError "Vector size must be a power of 2"
           \/ e = AssertionError "Vector size must be at least 8")).
Proof.
  apply (C1_construction_and_geometry 4 3 5 None 4 (-1) (Some 0)).
  - lia.
  - lia.
  - reflexivity.
  - lia.
  - left. lia.
Defined.

(** C2: what the code does.  [forward] reads the name [trans], which is
    neither a parameter (the parameter is [imgs]) nor a global of the
    module: every call raises [NameError] before [encode] runs, and so does
    the call on a batch of shape [(1, 1, 8)] of the model built for size
    8. *)
Theorem C2_forward_raises_NameError :
  (forall (self : VAE1D.Self) (imgs : shape),
     VAE1D.forward self imgs = Raise (NameError "trans"))
  /\ VAE1D.__init__ 8 1 None = Ok model_8
  /\ VAE1D.forward model_8 [1; 1; 8] = Raise (NameError "trans").
Proof.
  split; [|split].
  - intros self imgs. unfold VAE1D.forward. vm_compute. reflexivity.
  - exact model_8_built.
  - vm_compute. reflexivity.
Qed.

(** [generate_shape] is what [generate] does to the shapes of its
    arguments. *)
Lemma generate_shape_sound (self : VAE1D.Self) (st : torch.State)
    (mu logvar : torch.loc) (tm tl : torch.Tensor) (s : shape) :
  torch.heap st !! mu = Some tm -> torch.heap st !! logvar = Some tl ->
  VAE1D.generate_shape self (torch.shape_of tm) (torch.shape_of tl) = Ok s ->
  exists z st' tz, VAE1D.generate self mu logvar st = Ok (z, st')
    /\ torch.heap st' !! z = Some tz /\ torch.shape_of tz = s.
Proof.
  intros Hmu Hlv Hs. unfold VAE1D.generate_shape in Hs.
  destruct (decide (torch.shape_of tl = torch.shape_of tm)) as [Heq|]; [|discriminate].
  injection Hs as <-.
  exists (length (torch.heap st) + 3)%nat, (generate_final st tl tm), (gen_t st tl tm).
  split; [now apply generate_run|]. split; [|reflexivity].
  unfold generate_final. cbn [torch.heap].
  change [half_t tl; std_t tl; eps_t st tl; gen_t st tl tm]
    with ([half_t tl; std_t tl; eps_t st tl] ++ [gen_t st tl tm]).
  rewrite app_assoc. apply list_lookup_middle. rewrite length_app. simpl. lia.
Qed.

(** C3: on a model built for vectors of size [2^n], [encode] maps a batch
    of shape [(batch, n_channels, size)] to a [mu] and a [logvar];
    [generate] on tensors of these shapes returns a latent code, and
    [decode] maps that code to the shape [(batch, n_channels, size)] of the
    input. *)
Theorem C3_decode_generate_encode_preserves_shape
    (n n_channels b : Z) (n_latent : option Z)
    (st : torch.State) (mu logvar : torch.loc) (tm tl : torch.Tensor) :
  3 <= n -> 0 < n_channels -> 0 < default 100 n_latent -> 1 <= b ->
  torch.heap st !! mu = Some tm -> torch.heap st !! logvar = Some tl ->
  exists m s_mu s_logvar,
    VAE1D.__init__ (2 ^ n) n_channels n_latent = Ok m
    /\ VAE1D.encode m [b; n_channels; 2 ^ n] = Ok (s_mu, s_logvar)
    /\ (torch.shape_of tm = s_mu -> torch.shape_of tl = s_logvar ->
        exists z st' tz,
          VAE1D.generate m mu logvar st = Ok (z, st')
          /\ torch.heap st' !! z = Some tz
          /\ VAE1D.decode m (torch.shape_of tz) = Ok [b; n_channels; 2 ^ n]).
Proof.
  intros Hn Hc Hl Hb Hmu Hlv.
  pose proof (init_succeeds n n_channels n_latent Hn Hc Hl) as Hinit.
  match type of Hinit with _ = Ok ?r => set (m := r) in * end.
  exists m, [b; default 100 n_latent; 1], [b; default 100 n_latent; 1].
  split; [exact Hinit|].
  split; [now apply (encode_shape n)|].
  intros Hsm Hsl.
  destruct (generate_shape_sound m st mu logvar tm tl [b; default 100 n_latent; 1]
              Hmu Hlv) as (z & st' & tz & Hg & Hz & Hs).
  { unfold VAE1D.generate_shape. rewrite Hsm, Hsl. now rewrite decide_True. }
  exists z, st', tz. split; [exact Hg|]. split; [exact Hz|].
  rewrite Hs. unfold VAE1D.decode. cbn [VAE1D.decoder].
  now apply decoder_shape.
Qed.

Lemma C3_decode_generate_encode_preserves_shape_witness :
  exists m z st' tz,
    VAE1D.__init__ (2 ^ 3) 1 (Some 1) = Ok m
    /\ VAE1D.encode m [1; 1; 2 ^ 3] = Ok ([1; 1; 1], [1; 1; 1])
    /\ VAE1D.generate m 0%nat 1%nat store_2 = Ok (z, st')
    /\ torch.heap st' !! z = Some tz
    /\ VAE1D.decode m (torch.shape_of tz) = Ok [1; 1; 2 ^ 3].
Proof.
  destruct (C3_decode_generate_encode_preserves_shape 3 1 1 (Some 1) store_2 0%nat 1%nat
              {| torch.shape_of := [1; 1; 1]; torch.data := [1%R] |}
              {| torch.shape_of := [1; 1; 1]; torch.data := [0%R] |})
    as (m & s_mu & s_logvar & Hinit & Henc & Hrest).
  - lia.
  - lia.
  - reflexivity.
  - lia.
  - reflexivity.
  - reflexivity.
  - assert (Hm : Ok m = Ok {| VAE1D.n_latent := 1;
                              VAE1D.encoder := encoder_layers 3 1;
                              VAE1D.conv_mu := nn.Conv1dLayer 64 1 4 1 0;
                              VAE1D.conv_logvar := nn.Conv1dLayer 64 1 4 1 0;
                              VAE1D.decoder := decoder_layers 3 1 1 |}).
    { rewrite <- Hinit. vm_compute. reflexivity. }
    injection Hm as ->.
    assert (Hs : Ok (s_mu, s_logvar) = Ok ([1; 1; 1], [1; 1; 1]) :> result (shape * shape)).
    { rewrite <- Henc. vm_compute. reflexivity. }
    injection Hs as -> ->.
    destruct (Hrest eq_refl eq_refl) as (z & st' & tz & Hg & Hz & Hd).
    eexists _, z, st', tz. repeat split; eassumption.
Defined.

Lemma map_fmap {A B} (f : A -> B) (l : list A) : List.map f l = f <$> l.
Proof. induction l as [|a l IH]; simpl; [reflexivity | now rewrite IH]. Qed.

Lemma well_formed_same_length (t1 t2 : torch.Tensor) :
  well_formed t1 -> well_formed t2 -> torch.shape_of t1 = torch.shape_of t2 ->
  length (torch.data t1) = length (torch.data t2).
Proof. unfold well_formed. intros H1 H2 Hs. rewrite Hs in H1. lia. Qed.

(** C5: [generate(mu, logvar)] computes [std = exp(0.5 * logvar)], takes
    the next deviates of the generator as a tensor [eps] of the shape of
    [std], and returns the tensor [eps * std + mu]: its element at every
    position [i] is [eps_i * exp(0.5 * logvar_i) + mu_i]. *)
Theorem C5_generate_is_eps_std_plus_mu
    (self : VAE1D.Self) (st : torch.State) (mu logvar : torch.loc)
    (tm tl : torch.Tensor) :
  torch.heap st !! mu = Some tm -> torch.heap st !! logvar = Some tl ->
  torch.shape_of tm = torch.shape_of tl ->
  well_formed tm -> well_formed tl ->
  exists z st' std eps gen,
    VAE1D.generate self mu logvar st = Ok (z, st')
    /\ torch.heap st' !! (z - 2)%nat = Some std
    /\ torch.shape_of std = torch.shape_of tl
    /\ torch.data std = List.map (fun l => exp (0.5 * l))%R (torch.data tl)
    /\ torch.heap st' !! (z - 1)%nat = Some eps
    /\ torch.shape_of eps = torch.shape_of std
    /\ torch.data eps = List.map (torch.rng st) (List.seq 0 (length (torch.data std)))
    /\ torch.heap st' !! z = Some gen
    /\ torch.shape_of gen = torch.shape_of tm
    /\ length (torch.data gen) = length (torch.data tm)
    /\ torch.data gen
       = zip_with Rplus (zip_with Rmult (torch.data eps) (torch.data std)) (torch.data tm)
    /\ forall (i : nat) (m l : R),
         torch.data tm !! i = Some m -> torch.data tl !! i = Some l ->
         torch.data gen !! i = Some (torch.rng st i * exp (0.5 * l) + m)%R.
Proof.
  intros Hmu Hlv Hs Hwm Hwl.
  pose proof (well_formed_same_length tm tl Hwm Hwl Hs) as Hlen.
  exists (length (torch.heap st) + 3)%nat, (generate_final st tl tm),
         (std_t tl), (eps_t st tl), (gen_t st tl tm).
  assert (Hstd : torch.data (std_t tl)
                 = List.map (fun l => exp (0.5 * l))%R (torch.data tl)).
  { unfold std_t, half_t. cbn [torch.data]. now rewrite List.map_map. }
  split; [now apply generate_run|].
  unfold generate_final. cbn [torch.heap].
  replace (length (torch.heap st) + 3 - 2)%nat with (length (torch.heap st) + 1)%nat by lia.
  replace (length (torch.heap st) + 3 - 1)%nat with (length (torch.heap st) + 2)%nat by lia.
  rewrite !lookup_app_r by lia.
  replace (length (torch.heap st) + 1 - length (torch.heap st))%nat with 1%nat by lia.
  replace (length (torch.heap st) + 2 - length (torch.heap st))%nat with 2%nat by lia.
  replace (length (torch.heap st) + 3 - length (torch.heap st))%nat with 3%nat by lia.
  repeat split; try reflexivity; try assumption.
  - now rewrite Hs.
  - unfold gen_t, prod_t, eps_t. cbn [torch.data].
    rewrite !length_zip_with, Hstd, !List.length_map, List.length_seq. lia.
  - intros i m l Hm Hl.
    pose proof (lookup_lt_Some _ _ _ Hl) as Hi.
    unfold gen_t, prod_t, eps_t. cbn [torch.data].
    rewrite Hstd, !map_fmap, !lookup_zip_with, !list_lookup_fmap.
    rewrite lookup_seq_lt by (rewrite length_fmap; exact Hi).
    rewrite Hm, Hl. reflexivity.
Qed.

Lemma C5_generate_is_eps_std_plus_mu_witness :
  exists z st' std eps gen,
    VAE1D.generate model_8 0%nat 1%nat store_2 = Ok (z, st')
    /\ torch.heap st' !! (z - 2)%nat = Some std
    /\ torch.shape_of std = [1; 1; 1]
    /\ torch.data std = List.map (fun l => exp (0.5 * l))%R [0%R]
    /\ torch.heap st' !! (z - 1)%nat = Some eps
    /\ torch.shape_of eps = torch.shape_of std
    /\ torch.data eps = List.map (fun _ => 2%R) (List.seq 0 (length (torch.data std)))
    /\ torch.heap st' !! z = Some gen
    /\ torch.shape_of gen = [1; 1; 1]
    /\ length (torch.data gen) = 1%nat
    /\ torch.data gen
       = zip_with Rplus (zip_with Rmult (torch.data eps) (torch.data std)) [1%R]
    /\ forall (i : nat) (m l : R),
         [1%R] !! i = Some m -> [0%R] !! i = Some l ->
         torch.data gen !! i = Some (2 * exp (0.5 * l) + m)%R.
Proof.
  apply (C5_generate_is_eps_std_plus_mu model_8 store_2 0%nat 1%nat
           {| torch.shape_of := [1; 1; 1]; torch.data := [1%R] |}
           {| torch.shape_of := [1; 1; 1]; torch.data := [0%R] |}).
  - reflexivity.
  - reflexivity.
  - reflexivity.
  - reflexivity.
  - reflexivity.
Defined.

(** C10, as the specification states it, on a store with two tensors: the
    noise that [randn_like] draws is tensor 4, the one tensor that
    [generate] writes to is tensor 5, the product [gen.mul(std)], and the
    noise tensor still holds its deviate after the call. *)
Lemma C10_in_place_write_is_not_on_the_noise :
  exists st3 st',
    (half ← torch.scalar_mul 0.5 1%nat; std ← torch.exp half; torch.randn_like std)
      store_2 = Ok (4%nat, st3)
    /\ VAE1D.generate model_8 0%nat 1%nat store_2 = Ok (5%nat, st')
    /\ torch.written st' = [5%nat]
    /\ torch.heap st' !! 4%nat
       = Some {| torch.shape_of := [1; 1; 1]; torch.data := [2%R] |}
    /\ ~ In 4%nat (torch.written st').
Proof.
  eexists. eexists. split; [reflexivity|].
  split.
  - apply (generate_run model_8 store_2 0%nat 1%nat
             {| torch.shape_of := [1; 1; 1]; torch.data := [1%R] |}
             {| torch.shape_of := [1; 1; 1]; torch.data := [0%R] |});
      reflexivity.
  - split; [reflexivity|]. split; [reflexivity|].
    simpl. intros [H|[]]. discriminate H.
Qed.

(** C10 (amended): [generate] leaves [mu], [logvar] and every tensor that
    existed before the call unchanged.  Its one in-place write goes to a
    tensor created during the call, the product [gen.mul(std)], which it
    returns; the noise tensor, created just before it, is not written to
    and still holds the deviates that were drawn. *)
Theorem C10_generate_leaves_inputs_unchanged
    (self : VAE1D.Self) (st : torch.State) (mu logvar : torch.loc)
    (tm tl : torch.Tensor) :
  torch.heap st !! mu = Some tm -> torch.heap st !! logvar = Some tl ->
  torch.shape_of tm = torch.shape_of tl ->
  exists z st',
    VAE1D.generate self mu logvar st = Ok (z, st')
    /\ torch.heap st' !! mu = Some tm
    /\ torch.heap st' !! logvar = Some tl
    /\ (forall l t, torch.heap st !! l = Some t -> torch.heap st' !! l = Some t)
    /\ torch.written st' = torch.written st ++ [z]
    /\ (length (torch.heap st) < z)%nat
    /\ torch.heap st' !! (z - 1)%nat
       = Some {| torch.shape_of := torch.shape_of tl;
                 torch.data := List.map (torch.rng st)
                                 (List.seq 0 (length (torch.data tl))) |}.
Proof.
  intros Hmu Hlv Hs.
  exists (length (torch.heap st) + 3)%nat, (generate_final st tl tm).
  assert (Hold : forall l t, torch.heap st !! l = Some t ->
                             torch.heap (generate_final st tl tm) !! l = Some t).
  { intros l t Hl. unfold generate_final. cbn [torch.heap].
    rewrite lookup_app_l; [exact Hl | eapply lookup_lt_Some, Hl]. }
  split; [now apply generate_run|].
  split; [now apply Hold|]. split; [now apply Hold|]. split; [exact Hold|].
  split; [reflexivity|]. split; [lia|].
  unfold generate_final. cbn [torch.heap].
  rewrite lookup_app_r by lia.
  replace (length (torch.heap st) + 3 - 1 - length (torch.heap st))%nat with 2%nat by lia.
  unfold eps_t, std_t, half_t. cbn [torch.data]. rewrite !length_map. reflexivity.
Qed.

Lemma C10_generate_leaves_inputs_unchanged_witness :
  exists z st',
    VAE1D.generate model_8 0%nat 1%nat store_2 = Ok (z, st')
    /\ torch.heap st' !! 0%nat = Some {| torch.shape_of := [1; 1; 1]; torch.data := [1%R] |}
    /\ torch.heap st' !! 1%nat = Some {| torch.shape_of := [1; 1; 1]; torch.data := [0%R] |}
    /\ (forall l t, torch.heap store_2 !! l = Some t -> torch.heap st' !! l = Some t)
    /\ torch.written st' = torch.written store_2 ++ [z]
    /\ (length (torch.heap store_2) < z)%nat
    /\ torch.heap st' !! (z - 1)%nat
       = Some {| torch.shape_of := [1; 1; 1];
                 torch.data := List.map (torch.rng store_2) (List.seq 0 1) |}.
Proof.
  apply (C10_generate_leaves_inputs_unchanged model_8 store_2 0%nat 1%nat
           {| torch.shape_of := [1; 1; 1]; torch.data := [1%R] |}
           {| torch.shape_of := [1; 1; 1]; torch.data := [0%R] |}).
  - reflexivity.
  - reflexivity.
  - reflexivity.
Defined.

(* ================================================================== *)
(** * Properties of VAE1DLoss                                          *)
(* ================================================================== *)

Section Loss.

Import VAE1DLoss.
Open Scope R_scope.

(** One row of the reconstruction error. *)
Lemma squares_row (x y : list R) :
  List.map (fun d => d ^ 2) (zip_with Rminus x y)
  = zip_with (fun a b => (a - b) ^ 2) x y.
Proof.
  revert y. induction x as [|a x IH]; intros [|b y]; simpl; try reflexivity.
  now rewrite IH.
Qed.

Lemma squares_sample (x y : list (list R)) :
  List.map (List.map (fun d => d ^ 2)) (zip_with (zip_with Rminus) x y)
  = zip_with (zip_with (fun a b => (a - b) ^ 2)) x y.
Proof.
  revert y. induction x as [|a x IH]; intros [|b y]; simpl; try reflexivity.
  now rewrite IH, squares_row.
Qed.

(** The code's reconstruction error is the specification's term, sample
    by sample. *)
Lemma gen_err_spec (gen_trans trans : tensor3) :
  gen_err gen_trans trans = zip_with spec_reconstruction_term trans gen_trans.
Proof.
  unfold gen_err, reshape_rows, sum_last.
  revert gen_trans. induction trans as [|x trans IH]; intros [|y gen_trans];
    simpl; try reflexivity.
  rewrite IH, squares_sample. f_equal.
  unfold spec_reconstruction_term. lra.
Qed.

Lemma KL_row_spec (m l : list R) :
  sum (List.map (fun x => x * 0.5)
         (List.map (fun x => x - 1)
            (zip_with Rplus
               (zip_with Rplus (List.map Ropp l) (List.map exp l))
               (List.map (fun x => x ^ 2) m))))
  = spec_KL_term m l.
Proof.
  unfold spec_KL_term.
  unfold sum in *.
  revert m. induction l as [|b l IH]; intros [|a m];
    cbn [zip_with List.map List.fold_right]; try reflexivity.
  rewrite IH. lra.
Qed.

(** The code's KL term is the specification's, sample by sample. *)
Lemma KL_rows_spec (mu logvar : tensor2) :
  KL_rows mu logvar = zip_with spec_KL_term mu logvar.
Proof.
  unfold KL_rows, sum_last.
  revert mu. induction logvar as [|l logvar IH]; intros [|m mu];
    simpl; try reflexivity.
  now rewrite IH, KL_row_spec.
Qed.

End Loss.

Lemma same_shape_lengths (trans gen_trans : tensor3) (mu logvar : tensor2) :
  VAE1DLoss.same_shape3 trans gen_trans = true ->
  VAE1DLoss.same_shape2 mu logvar = true ->
  length trans = length gen_trans /\ length mu = length logvar.
Proof.
  unfold VAE1DLoss.same_shape3, VAE1DLoss.same_shape2.
  intros H3 H2. apply bool_decide_eq_true in H3, H2.
  apply (f_equal (@length _)) in H3, H2.
  rewrite !List.length_map in H3, H2. now split.
Qed.

Lemma add_scaled (c : R) (r k : list R) :
  zip_with Rplus r (List.map (Rmult c) k) = zip_with (fun x y => x + c * y)%R r k.
Proof.
  revert k. induction r as [|x r IH]; intros [|y k]; simpl; try reflexivity.
  now rewrite IH.
Qed.

(** C4: the loss is the reconstruction term plus [beta] times the KL
    term.  For each sample the reconstruction term is half the sum, over
    all its channels and positions, of the squared differences between the
    sample and its reconstruction, and the KL term is the sum over the
    latent dimensions of [0.5 * (exp(logvar) + mu^2 - logvar - 1)]; without
    [reduce] the loss is that combination sample by sample, with [reduce]
    (the default) both terms are averaged over the batch first.  [beta] is
    the parameter of the constructor, 1 by default. *)
Theorem C4_loss_is_reconstruction_plus_beta_KL
    (self : VAE1DLoss.Self) (gen_trans trans : tensor3) (mu logvar : tensor2) :
  trans <> [] ->
  VAE1DLoss.same_shape3 trans gen_trans = true ->
  VAE1DLoss.same_shape2 mu logvar = true ->
  length mu = length trans ->
  let rec := zip_with spec_reconstruction_term trans gen_trans in
  let kl := zip_with spec_KL_term mu logvar in
  VAE1DLoss.forward self gen_trans trans mu logvar false
  = Ok (VAE1DLoss.PerSample
          (zip_with (fun r k => r + VAE1DLoss.beta self * k)%R rec kl),
        {| VAE1DLoss.KL := VAE1DLoss.PerSample kl;
           VAE1DLoss.logp := VAE1DLoss.PerSample (List.map Ropp rec) |})
  /\ VAE1DLoss.forward self gen_trans trans mu logvar true
     = Ok (VAE1DLoss.Scalar
             (VAE1DLoss.mean rec + VAE1DLoss.beta self * VAE1DLoss.mean kl)%R,
           {| VAE1DLoss.KL := VAE1DLoss.Scalar (VAE1DLoss.mean kl);
              VAE1DLoss.logp := VAE1DLoss.Scalar (- VAE1DLoss.mean rec)%R |})
  /\ VAE1DLoss.beta (VAE1DLoss.__init__ None) = 1%R
  /\ forall b, VAE1DLoss.beta (VAE1DLoss.__init__ (Some b)) = b.
Proof.
  intros Hne H3 H2 Hlen rec kl.
  destruct (same_shape_lengths _ _ _ _ H3 H2) as [Hl3 Hl2].
  assert (Hrk : length rec = length kl).
  { unfold rec, kl. rewrite !length_zip_with. lia. }
  assert (Hfw : forall reduce,
             VAE1DLoss.forward self gen_trans trans mu logvar reduce
             = (loss ← VAE1DLoss.add (VAE1DLoss.reduced reduce rec)
                         (VAE1DLoss.scale (VAE1DLoss.beta self)
                            (VAE1DLoss.reduced reduce kl));
                Ok (loss, {| VAE1DLoss.KL := VAE1DLoss.reduced reduce kl;
                             VAE1DLoss.logp :=
                               VAE1DLoss.neg (VAE1DLoss.reduced reduce rec) |}))).
  { intros reduce. unfold VAE1DLoss.forward.
    rewrite decide_False by (destruct trans; [contradiction | discriminate]).
    rewrite H3, H2. cbn [andb negb].
    rewrite gen_err_spec, KL_rows_spec. reflexivity. }
  rewrite !Hfw.
  split; [| split; [| split; [reflexivity | intros b; reflexivity]]].
  - cbn [VAE1DLoss.reduced VAE1DLoss.scale VAE1DLoss.add VAE1DLoss.neg].
    rewrite decide_True by (rewrite List.length_map; exact Hrk).
    rewrite bind_Ok, add_scaled. reflexivity.
  - cbn [VAE1DLoss.reduced VAE1DLoss.scale VAE1DLoss.add VAE1DLoss.neg].
    rewrite bind_Ok. reflexivity.
Qed.

Lemma C4_loss_is_reconstruction_plus_beta_KL_witness :
  let rec := zip_with spec_reconstruction_term [[[2; 2; 2; 2]]]%R [[[1; 1; 1; 1]]]%R in
  let kl := zip_with spec_KL_term [[0; 0]]%R [[0; 0]]%R in
  VAE1DLoss.forward (VAE1DLoss.__init__ None) [[[1; 1; 1; 1]]]%R [[[2; 2; 2; 2]]]%R
    [[0; 0]]%R [[0; 0]]%R false
  = Ok (VAE1DLoss.PerSample
          (zip_with (fun r k => r + VAE1DLoss.beta (VAE1DLoss.__init__ None) * k)%R rec kl),
        {| VAE1DLoss.KL := VAE1DLoss.PerSample kl;
           VAE1DLoss.logp := VAE1DLoss.PerSample (List.map Ropp rec) |})
  /\ VAE1DLoss.forward (VAE1DLoss.__init__ None) [[[1; 1; 1; 1]]]%R [[[2; 2; 2; 2]]]%R
       [[0; 0]]%R [[0; 0]]%R true
     = Ok (VAE1DLoss.Scalar
             (VAE1DLoss.mean rec
              + VAE1DLoss.beta (VAE1DLoss.__init__ None) * VAE1DLoss.mean kl)%R,
           {| VAE1DLoss.KL := VAE1DLoss.Scalar (VAE1DLoss.mean kl);
              VAE1DLoss.logp := VAE1DLoss.Scalar (- VAE1DLoss.mean rec)%R |})
  /\ VAE1DLoss.beta (VAE1DLoss.__init__ None) = 1%R
  /\ forall b, VAE1DLoss.beta (VAE1DLoss.__init__ (Some b)) = b.
Proof.
  apply (C4_loss_is_reconstruction_plus_beta_KL (VAE1DLoss.__init__ None)
           [[[1; 1; 1; 1]]]%R [[[2; 2; 2; 2]]]%R [[0; 0]]%R [[0; 0]]%R).
  - discriminate.
  - reflexivity.
  - reflexivity.
  - reflexivity.
Defined.

(* ================================================================== *)
(** * Properties of TransientDataset                                   *)
(* ================================================================== *)

Example two_samples_built :
  TransientDataset.__init__ two_samples [] [(0, 2)%R] = Ok two_samples_ds.
Proof. reflexivity. Qed.

(** [norm] itself is the normalization of the specification: on the raw
    array [[2, 2, 2, 2]] with mean 0 and standard deviation 2 it returns
    [[1, 1, 1, 1]]. *)
Example norm_two_samples :
  TransientDataset.norm two_samples_ds [[2; 2; 2; 2]%R] = Ok [[1; 1; 1; 1]%R].
Proof.
  unfold TransientDataset.norm. rewrite decide_True by reflexivity.
  cbn [TransientDataset.mu TransientDataset.sigma two_samples_ds
       List.combine zip_with List.map fst snd].
  replace ((2 - 0) / 2)%R with 1%R by lra. reflexivity.
Qed.

(** Whatever the dataset and the index, [__getitem__] returns nothing. *)
Lemma getitem_always_raises (fs : os.tree) (self : TransientDataset.Self) (index : Z) :
  fails (TransientDataset.__getitem__ fs self index).
Proof.
  unfold TransientDataset.__getitem__, fails.
  destruct (getitem (TransientDataset.names self) index) as [name|e];
    [|now exists e].
  destruct (getitem (TransientDataset.targets self) index) as [target|e];
    [|now exists e].
  eexists. reflexivity.
Qed.

(** C7: what the code does.  In the directory with the class [a] and its
    two samples, the first of which holds [[2, 2, 2, 2]], with mean 0 and
    standard deviation 2, [get(0)] does not return the normalized sample
    [[1, 1, 1, 1]] and the label 0: [self.targets[0]] is the list of the
    labels of class [a], and using it as a subscript of [self.classes]
    raises [TypeError]. *)
Theorem C7_getitem_raises_TypeError :
  TransientDataset.__init__ two_samples [] [(0, 2)%R] = Ok two_samples_ds
  /\ np.load two_samples ["a"; "s1.npy"] = Ok [[2; 2; 2; 2]%R]
  /\ TransientDataset.__getitem__ two_samples two_samples_ds 0
     = Raise (TypeError "list indices must be integers or slices, not list")
  /\ forall (fs : os.tree) (self : TransientDataset.Self) (index : Z),
       fails (TransientDataset.__getitem__ fs self index).
Proof.
  split; [reflexivity|]. split; [reflexivity|]. split; [reflexivity|].
  exact getitem_always_raises.
Qed.

Lemma scan_length (fs : os.tree) (p : os.Path) (l : list (Z * string))
    (acc acc' : list (list string) * list (list Z)) :
  for_each l (TransientDataset.scan_class fs p) acc = Ok acc' ->
  length (fst acc') = (length (fst acc) + length l)%nat.
Proof.
  revert acc. induction l as [|[i c] l IH]; intros acc H; simpl in H.
  - injection H as <-. simpl. lia.
  - destruct (os.listdir fs (os.div p c)) as [ns|e]; simpl in H; [|discriminate H].
    apply IH in H. rewrite H. cbn [fst]. rewrite length_app. simpl. lia.
Qed.

Lemma length_enumerate {A} (l : list A) : length (enumerate l) = length l.
Proof.
  unfold enumerate. rewrite List.length_combine, List.length_map, List.length_seq. lia.
Qed.

(** The length of a dataset is the number of its class directories. *)
Lemma len_is_number_of_classes (fs : os.tree) (p : os.Path) (normals : list (R * R))
    (ds : TransientDataset.Self) :
  TransientDataset.__init__ fs p normals = Ok ds ->
  TransientDataset.__len__ ds = Z.of_nat (length (TransientDataset.classes ds)).
Proof.
  unfold TransientDataset.__init__, TransientDataset.__len__. intros H.
  destruct (os.listdir fs p) as [ls|e]; [|discriminate H]. rewrite bind_Ok in H.
  destruct (for_each _ _ _) as [acc|e] eqn:Hacc; [|discriminate H].
  rewrite bind_Ok in H. injection H as <-.
  cbn [TransientDataset.names TransientDataset.classes].
  apply scan_length in Hacc. rewrite Hacc, length_enumerate. reflexivity.
Qed.

(** C8: what the code does.  Over the directory with the one class [a]
    and its two samples, [length()] returns 1, the number of class
    directories, although two samples were enumerated. *)
Theorem C8_len_counts_class_directories :
  TransientDataset.__init__ two_samples [] [(0, 2)%R] = Ok two_samples_ds
  /\ TransientDataset.__len__ two_samples_ds = 1
  /\ Z.of_nat (length (List.concat (TransientDataset.names two_samples_ds))) = 2.
Proof. repeat split; reflexivity. Qed.

(** C9: what the code does.  [index] reads its local variable [index]
    before any value has been assigned to it: every call raises
    [UnboundLocalError], for a name that is in the dataset, with or without
    its extension, and for a name that is not. *)
Theorem C9_index_raises_UnboundLocalError :
  (forall (self : TransientDataset.Self) (name : string),
     TransientDataset.index self name = Raise (UnboundLocalError "index"))
  /\ TransientDataset.index two_samples_ds "s1.npy" = Raise (UnboundLocalError "index")
  /\ TransientDataset.index two_samples_ds "s1" = Raise (UnboundLocalError "index")
  /\ TransientDataset.index two_samples_ds "s3" = Raise (UnboundLocalError "index").
Proof.
  split; [|split; [|split]].
  - intros self name. unfold TransientDataset.index. vm_compute. reflexivity.
  - vm_compute. reflexivity.
  - vm_compute. reflexivity.
  - vm_compute. reflexivity.
Qed.

(* ================================================================== *)
(** * Further properties of VAE1D                                      *)
(* ================================================================== *)

Lemma twelve_is_no_power_of_two : ~ power_of_two 12.
Proof.
  intros (k & Hk & H).
  assert (Hlt : k < 4) by (apply (Z.pow_lt_mono_r_iff 2); lia).
  assert (Hc : k = 0 \/ k = 1 \/ k = 2 \/ k = 3) by lia.
  destruct Hc as [->|[->|[->| ->]]]; discriminate H.
Qed.

(** Which of its three checks stops the constructor: [math.log2] refuses
    a size that is not positive; the first assertion refuses a positive
    size below [2^32] that is not a power of two; the second one refuses
    the powers of two below 8. *)
Theorem init_error_by_size (s1 s2 s3 n_channels : Z) (n_latent : option Z) :
  s1 <= 0 ->
  0 < s2 < 2 ^ 32 -> ~ power_of_two s2 ->
  0 < s3 < 8 -> power_of_two s3 ->
  VAE1D.__init__ s1 n_channels n_latent = Raise (ValueError "math domain error")
  /\ VAE1D.__init__ s2 n_channels n_latent
     = Raise (AssertionError "Vector size must be a power of 2")
  /\ VAE1D.__init__ s3 n_channels n_latent
     = Raise (AssertionError "Vector size must be at least 8").
Proof.
  intros H1 H2 Hn2 H3 Hp3. unfold VAE1D.__init__, math.log2.
  split; [|split].
  - now rewrite (proj2 (Z.leb_le s1 0)).
  - rewrite (proj2 (Z.leb_gt s2 0)) by lia.
    destruct (Z.eqb_spec s2 (2 ^ Z.log2 s2)) as [Heq|Hne].
    { exfalso. apply Hn2. exists (Z.log2 s2).
      split; [apply Z.log2_nonneg | exact Heq]. }
    unfold math.log2_rounding_bound.
    rewrite (proj2 (Z.ltb_lt s2 (2 ^ 32))) by lia. reflexivity.
  - rewrite (proj2 (Z.leb_gt s3 0)) by lia.
    destruct Hp3 as (k & Hk & ->). rewrite Z.log2_pow2, Z.eqb_refl, bind_Ok by lia.
    unfold math.is_round, math.exact, math.ge, math.floor, assert.
    rewrite bind_Ok.
    assert (k < 3) by (apply (Z.pow_lt_mono_r_iff 2); simpl; lia).
    now rewrite (proj2 (Z.leb_gt 3 k)).
Qed.

Lemma init_error_by_size_witness :
  VAE1D.__init__ (-8) 3 None = Raise (ValueError "math domain error")
  /\ VAE1D.__init__ 12 3 None = Raise (AssertionError "Vector size must be a power of 2")
  /\ VAE1D.__init__ 4 3 None = Raise (AssertionError "Vector size must be at least 8").
Proof.
  apply (init_error_by_size (-8) 12 4 3 None).
  - lia.
  - split; [lia | reflexivity].
  - exact twelve_is_no_power_of_two.
  - lia.
  - exists 2. split; [lia | reflexivity].
Defined.

Section OtherLengths.

Variable b : Z.
Hypothesis Hb : 1 <= b.

(** [k] encoder stages starting at stage [j] divide a length [l * 2^k]
    by [2^k]. *)
Lemma encoder_stages_divide (k j : nat) (l : Z) :
  2 <= l ->
  nn.Sequential_forward
    (List.flat_map encoder_stage_layers (List.map Z.of_nat (List.seq j k)))
    [b; depth * 2 ^ Z.of_nat j; l * 2 ^ Z.of_nat k]
  = Ok [b; depth * 2 ^ Z.of_nat (j + k); l].
Proof.
  intros Hl. revert j. induction k as [|k IH]; intros j.
  - cbn [List.seq List.map List.flat_map]. unfold nn.Sequential_forward. cbn [for_each].
    change (Z.of_nat 0) with 0. rewrite Z.pow_0_r, Z.mul_1_r, Nat.add_0_r. reflexivity.
  - cbn [List.seq List.map List.flat_map].
    rewrite Sequential_forward_app.
    replace (l * 2 ^ Z.of_nat (S k)) with (2 * (l * 2 ^ Z.of_nat k))
      by (rewrite Nat2Z.inj_succ, Z.pow_succ_r; lia).
    rewrite encoder_stage_shape
      by (assumption || (pose proof (Z.pow_pos_nonneg 2 (Z.of_nat k)); nia)).
    replace (Z.of_nat j + 1) with (Z.of_nat (S j)) by lia.
    rewrite IH. replace (S j + k)%nat with (j + S k)%nat by lia. reflexivity.
Qed.

Variables n n_channels n_latent : Z.
Hypothesis Hn : 3 <= n.

Lemma pow2_split_2 : 2 ^ (n - 2) = 2 * 2 ^ Z.of_nat (Z.to_nat (n - 3)).
Proof.
  rewrite Z2Nat.id by lia.
  replace (n - 2) with (1 + (n - 3)) by lia.
  rewrite Z.pow_add_r by lia. lia.
Qed.

(** The encoder divides every length [l * 2^(n-2)] by [2^(n-2)]. *)
Lemma encoder_divides (l : Z) :
  2 <= l ->
  nn.Sequential_forward (encoder_layers n n_channels)
    [b; n_channels; l * 2 ^ (n - 2)]
  = Ok [b; depth * 2 ^ (n - 3); l].
Proof.
  intros Hl. unfold encoder_layers. rewrite Sequential_forward_app.
  unfold nn.Sequential_forward at 1. cbn [for_each].
  pose proof (Z.pow_pos_nonneg 2 (Z.of_nat (Z.to_nat (n - 3)))).
  rewrite pow2_split_2.
  replace (l * (2 * 2 ^ Z.of_nat (Z.to_nat (n - 3))))
    with (2 * (l * 2 ^ Z.of_nat (Z.to_nat (n - 3)))) by lia.
  rewrite conv_halves by (assumption || nia). cbn [nn.forward].
  unfold range.
  replace depth with (depth * 2 ^ Z.of_nat 0) at 1 by (simpl; lia).
  rewrite encoder_stages_divide by assumption.
  replace (Z.of_nat (0 + Z.to_nat (n - 3))) with (n - 3) by lia. reflexivity.
Qed.

(** The decoder multiplies every length [l], after the 3 positions that
    its first layer adds, by [2^(n-2)]. *)
Lemma decoder_multiplies (l : Z) :
  1 <= l ->
  nn.Sequential_forward (decoder_layers n n_channels n_latent) [b; n_latent; l]
  = Ok [b; n_channels; (l + 3) * 2 ^ (n - 2)].
Proof.
  intros Hl. unfold decoder_layers, range_down. rewrite pow2_split_2.
  set (k := Z.to_nat (n - 3)). replace (n - 3) with (Z.of_nat k) by lia.
  rewrite !Sequential_forward_app.
  unfold nn.Sequential_forward at 1. cbn [for_each].
  unfold nn.forward at 1. rewrite Z.eqb_refl. cbn [negb].
  rewrite (proj2 (Z.ltb_ge l 1)) by lia.
  replace ((l - 1) * 1 - 2 * 0 + (filt_size - 1) + 1) with (l + 3)
    by (unfold filt_size; lia).
  rewrite batchnorm_keeps by (assumption || lia). cbn [nn.forward].
  rewrite Sequential_forward_app, decoder_stages_shape by (assumption || lia).
  unfold nn.Sequential_forward. cbn [for_each].
  pose proof (Z.pow_pos_nonneg 2 (Z.of_nat k)).
  rewrite conv_transpose_doubles by (assumption || nia). cbn [nn.forward].
  replace (2 * ((l + 3) * 2 ^ Z.of_nat k)) with ((l + 3) * (2 * 2 ^ Z.of_nat k)) by lia.
  reflexivity.
Qed.

End OtherLengths.

Lemma squeeze_last_keeps (b c l : Z) : l <> 1 -> squeeze_last [b; c; l] = [b; c; l].
Proof.
  intros Hl. unfold squeeze_last. cbn [List.rev List.app].
  destruct l as [|p|p]; try reflexivity. destruct p; try reflexivity. contradiction.
Qed.

Lemma head_shape_any (b c n_latent l : Z) :
  4 <= l ->
  nn.forward (nn.Conv1dLayer c n_latent filt_size 1 0) [b; c; l]
  = Ok [b; n_latent; l - 3].
Proof.
  intros Hl. unfold nn.forward, filt_size. rewrite Z.eqb_refl. cbn [negb].
  rewrite (proj2 (Z.ltb_ge _ _)) by lia.
  rewrite Z.div_1_r. replace (l + 2 * 0 - (4 - 1) - 1 + 1) with (l - 3) by lia.
  reflexivity.
Qed.

Lemma head_fails_short (b c n_latent l : Z) :
  l < 4 ->
  nn.forward (nn.Conv1dLayer c n_latent filt_size 1 0) [b; c; l]
  = Raise (RuntimeError "Kernel size can't be greater than actual input size").
Proof.
  intros Hl. unfold nn.forward, filt_size. rewrite Z.eqb_refl. cbn [negb].
  now rewrite (proj2 (Z.ltb_lt _ _)) by lia.
Qed.

(** The size given to the constructor fixes the depth of the pyramids,
    not the length of the vectors the model takes: a model built for size
    [2^n] encodes every batch of vectors of length [l * 2^(n-2)] with
    [l >= 4] into a [mu] and a [logvar] with [l - 3] positions, and decodes
    a latent code with [l - 3] positions into a batch of the shape of the
    input. *)
Theorem model_takes_longer_vectors (n n_channels b l : Z) (n_latent : option Z) :
  3 <= n -> 0 < n_channels -> 0 < default 100 n_latent -> 1 <= b -> 4 <= l ->
  exists m, VAE1D.__init__ (2 ^ n) n_channels n_latent = Ok m
    /\ VAE1D.encode m [b; n_channels; l * 2 ^ (n - 2)]
       = Ok ([b; default 100 n_latent; l - 3], [b; default 100 n_latent; l - 3])
    /\ VAE1D.decode m [b; default 100 n_latent; l - 3]
       = Ok [b; n_channels; l * 2 ^ (n - 2)].
Proof.
  intros Hn Hc Hl Hb Hlen.
  eexists. split; [apply init_succeeds; assumption|]. split.
  - unfold VAE1D.encode. cbn [VAE1D.encoder VAE1D.conv_mu VAE1D.conv_logvar].
    rewrite encoder_divides, bind_Ok by (assumption || lia).
    rewrite !squeeze_last_keeps by lia.
    rewrite head_shape_any, !bind_Ok by assumption. reflexivity.
  - unfold VAE1D.decode. cbn [VAE1D.decoder].
    rewrite decoder_multiplies by (assumption || lia).
    replace (l - 3 + 3) with l by lia. reflexivity.
Qed.

Lemma model_takes_longer_vectors_witness :
  exists m, VAE1D.__init__ (2 ^ 4) 3 None = Ok m
    /\ VAE1D.encode m [5; 3; 6 * 2 ^ (4 - 2)]
       = Ok ([5; default 100 None; 6 - 3], [5; default 100 None; 6 - 3])
    /\ VAE1D.decode m [5; default 100 None; 6 - 3] = Ok [5; 3; 6 * 2 ^ (4 - 2)].
Proof.
  apply (model_takes_longer_vectors 4 3 5 6 None).
  - lia.
  - lia.
  - reflexivity.
  - lia.
  - lia.
Defined.

(** A model built for size [2^n] refuses vectors of half that size, and
    every length [l * 2^(n-2)] with [l] 2 or 3: the encoder pyramid leaves
    fewer than the 4 positions that the kernel of the latent heads
    needs. *)
Theorem encode_refuses_shorter_vectors (n n_channels b l : Z) (n_latent : option Z) :
  3 <= n -> 0 < n_channels -> 0 < default 100 n_latent -> 1 <= b -> 2 <= l <= 3 ->
  exists m, VAE1D.__init__ (2 ^ n) n_channels n_latent = Ok m
    /\ VAE1D.encoder_output m [b; n_channels; l * 2 ^ (n - 2)]
       = Ok [b; depth * 2 ^ (n - 3); l]
    /\ VAE1D.encode m [b; n_channels; l * 2 ^ (n - 2)]
       = Raise (RuntimeError "Kernel size can't be greater than actual input size").
Proof.
  intros Hn Hc Hl Hb Hlen.
  eexists. split; [apply init_succeeds; assumption|]. split.
  - unfold VAE1D.encoder_output. cbn [VAE1D.encoder].
    apply encoder_divides; (assumption || lia).
  - unfold VAE1D.encode. cbn [VAE1D.encoder VAE1D.conv_mu VAE1D.conv_logvar].
    rewrite encoder_divides, bind_Ok by (assumption || lia).
    rewrite !squeeze_last_keeps by lia.
    rewrite head_fails_short by lia. reflexivity.
Qed.

Lemma encode_refuses_shorter_vectors_witness :
  exists m, VAE1D.__init__ (2 ^ 4) 3 None = Ok m
    /\ VAE1D.encoder_output m [5; 3; 2 * 2 ^ (4 - 2)] = Ok [5; depth * 2 ^ (4 - 3); 2]
    /\ VAE1D.encode m [5; 3; 2 * 2 ^ (4 - 2)]
       = Raise (RuntimeError "Kernel size can't be greater than actual input size").
Proof.
  apply (encode_refuses_shorter_vectors 4 3 5 2 None).
  - lia.
  - lia.
  - reflexivity.
  - lia.
  - lia.
Defined.

(** A batch with another number of channels than the model was built
    for is refused by the first layer of the encoder, whatever its length,
    and a latent code with another number of channels than [n_latent] by
    the first layer of the decoder. *)
Theorem wrong_channel_count_is_refused
    (n n_channels b c l : Z) (n_latent : option Z) :
  3 <= n -> 0 < n_channels -> 0 < default 100 n_latent ->
  exists m, VAE1D.__init__ (2 ^ n) n_channels n_latent = Ok m
    /\ (c <> n_channels ->
        VAE1D.encode m [b; c; l]
        = Raise (RuntimeError "expected input to have in_channels channels"))
    /\ (c <> default 100 n_latent ->
        VAE1D.decode m [b; c; l]
        = Raise (RuntimeError "expected input to have in_channels channels")).
Proof.
  intros Hn Hc Hl.
  eexists. split; [apply init_succeeds; assumption|]. split; intros Hne.
  - unfold VAE1D.encode. cbn [VAE1D.encoder]. unfold encoder_layers.
    unfold nn.Sequential_forward. cbn [List.app for_each nn.forward].
    now rewrite (proj2 (Z.eqb_neq c n_channels)).
  - unfold VAE1D.decode. cbn [VAE1D.decoder]. unfold decoder_layers.
    unfold nn.Sequential_forward. cbn [List.app for_each nn.forward].
    now rewrite (proj2 (Z.eqb_neq c (default 100 n_latent))).
Qed.

Lemma wrong_channel_count_is_refused_witness :
  exists m, VAE1D.__init__ (2 ^ 3) 3 None = Ok m
    /\ VAE1D.encode m [5; 1; 8]
       = Raise (RuntimeError "expected input to have in_channels channels")
    /\ VAE1D.decode m [5; 1; 8]
       = Raise (RuntimeError "expected input to have in_channels channels").
Proof.
  destruct (wrong_channel_count_is_refused 3 3 5 1 8 None) as (m & Hm & He & Hd).
  - lia.
  - lia.
  - reflexivity.
  - exists m. split; [exact Hm|]. split; [apply He | apply Hd]; discriminate.
Defined.

Lemma NoDup_stage_keys (f : Z -> nn.Sequential) (l : list Z) :
  List.NoDup l ->
  (forall i, In i l -> List.NoDup (List.map fst (f i))) ->
  (forall i j x, In i l -> In j l -> i <> j ->
     In x (List.map fst (f i)) -> In x (List.map fst (f j)) -> False) ->
  List.NoDup (List.map fst (List.flat_map f l)).
Proof.
  induction l as [|i l IH]; intros Hnd Hin Hdis; [constructor|].
  inversion Hnd as [|? ? Hi Hnd']; subst.
  cbn [List.flat_map]. rewrite List.map_app. apply List.NoDup_app.
  - apply Hin. now left.
  - apply IH; [assumption | intros j Hj; apply Hin; now right |].
    intros j j' x Hj Hj'. apply Hdis; now right.
  - intros x Hx Hx'.
    apply in_map_iff in Hx' as ([k v] & <- & Hkv).
    apply in_flat_map in Hkv as (j & Hj & Hkv).
    apply (Hdis i j k); [now left | now right | intros ->; contradiction | exact Hx |].
    apply in_map_iff. now exists (k, v).
Qed.

Lemma length_stages (f : Z -> nn.Sequential) (l : list Z) :
  (forall i, length (f i) = 3%nat) ->
  length (List.flat_map f l) = (3 * length l)%nat.
Proof.
  intros Hf. induction l as [|i l IH]; [reflexivity|].
  cbn [List.flat_map]. rewrite length_app, Hf, IH. simpl. lia.
Qed.

Lemma length_range (k : Z) : length (range k) = Z.to_nat k.
Proof. unfold range. now rewrite List.length_map, List.length_seq. Qed.

Lemma length_range_down (k : Z) : length (range_down k) = Z.to_nat k.
Proof. unfold range_down. now rewrite List.length_rev, List.length_map, List.length_seq. Qed.

(** No call of [add_module] in the constructor overwrites a layer: in a
    model built for size [2^n] the names of the layers of the encoder are
    pairwise distinct, and so are those of the decoder.  The encoder has
    [3n - 7] layers, [n - 2] of them convolutions, and the decoder has
    [3n - 4] layers. *)
Theorem layer_names_are_distinct (n n_channels : Z) (n_latent : option Z) :
  3 <= n -> 0 < n_channels -> 0 < default 100 n_latent ->
  exists m, VAE1D.__init__ (2 ^ n) n_channels n_latent = Ok m
    /\ List.NoDup (List.map fst (VAE1D.encoder m))
    /\ List.NoDup (List.map fst (VAE1D.decoder m))
    /\ Z.of_nat (length (VAE1D.encoder m)) = 3 * n - 7
    /\ Z.of_nat (count_convs (VAE1D.encoder m)) = n - 2
    /\ Z.of_nat (length (VAE1D.decoder m)) = 3 * n - 4.
Proof.
  intros Hn Hc Hl.
  eexists. split; [apply init_succeeds; assumption|].
  cbn [VAE1D.encoder VAE1D.decoder].
  assert (Henc : List.NoDup (List.map fst
                   (List.flat_map encoder_stage_layers (range (n - 3))))).
  { apply NoDup_stage_keys.
    - apply NoDup_range.
    - intros i Hi. apply in_range in Hi.
      apply stage_names_NoDup; apply depth_pow_pos; lia.
    - intros i j x Hi Hj. apply in_range in Hi, Hj.
      apply encoder_stages_disjoint; lia. }
  assert (Hdec : List.NoDup (List.map fst
                   (List.flat_map decoder_stage_layers (range_down (n - 3))))).
  { apply NoDup_stage_keys.
    - apply NoDup_range_down.
    - intros i Hi. apply in_range_down in Hi.
      apply stage_names_NoDup; apply depth_pow_pos; lia.
    - intros i j x Hi Hj. apply in_range_down in Hi, Hj.
      apply decoder_stages_disjoint; lia. }
  assert (Hpe : forall x, In x (List.map fst
                  (List.flat_map encoder_stage_layers (range (n - 3)))) ->
                exists r, x = String "p" r).
  { intros x. apply stages_head. intros i y. apply stage_names_head. }
  assert (Hpd : forall x, In x (List.map fst
                  (List.flat_map decoder_stage_layers (range_down (n - 3)))) ->
                exists r, x = String "p" r).
  { intros x. apply stages_head. intros i y. apply stage_names_head. }
  split; [|split; [|split; [|split]]].
  - unfold encoder_layers. cbn [List.app List.map fst].
    constructor.
    { intros [H|H]; [discriminate H | apply Hpe in H as [r H]; discriminate H]. }
    constructor; [|exact Henc].
    intros H. apply Hpe in H as [r H]. discriminate H.
  - unfold decoder_layers. cbn [List.app List.map fst].
    rewrite List.map_app. cbn [List.map fst].
    assert (Hout : forall x, In x ["output-conv"; "output-tanh"] ->
                     ~ exists r, x = String "p" r).
    { intros x [<-|[<-|[]]] [r H]; discriminate H. }
    assert (Hpyr : List.NoDup
              (List.map fst (List.flat_map decoder_stage_layers (range_down (n - 3)))
               ++ ["output-conv"; "output-tanh"])).
    { apply List.NoDup_app; [exact Hdec | |].
      - repeat constructor; simpl; intros H; repeat (destruct H as [H|H]);
          try discriminate H; contradiction.
      - intros x Hx Hx'. apply (Hout x Hx'). now apply Hpd. }
    assert (Hnot : forall x, In x ["input-conv"; "input-batchnorm"; "input-relu"] ->
              ~ In x (List.map fst
                        (List.flat_map decoder_stage_layers (range_down (n - 3)))
                      ++ ["output-conv"; "output-tanh"])).
    { intros x Hx H. apply in_app_iff in H as [H|H].
      - apply Hpd in H as [r ->]. simpl in Hx.
        destruct Hx as [H|[H|[H|[]]]]; discriminate H.
      - simpl in Hx, H.
        destruct Hx as [<-|[<-|[<-|[]]]]; destruct H as [H|[H|[]]]; discriminate H. }
    constructor.
    { intros [H|[H|H]]; try discriminate H.
      revert H. apply Hnot. simpl. auto. }
    constructor.
    { intros [H|H]; try discriminate H.
      revert H. apply Hnot. simpl. auto. }
    constructor; [|exact Hpyr].
    apply Hnot. simpl. auto.
  - unfold encoder_layers. rewrite length_app, length_stages, length_range by reflexivity.
    simpl length. lia.
  - now apply encoder_downsampling_stages.
  - unfold decoder_layers.
    rewrite !length_app, length_stages, length_range_down by reflexivity.
    simpl length. lia.
Qed.

Lemma layer_names_are_distinct_witness :
  exists m, VAE1D.__init__ (2 ^ 5) 3 None = Ok m
    /\ List.NoDup (List.map fst (VAE1D.encoder m))
    /\ List.NoDup (List.map fst (VAE1D.decoder m))
    /\ Z.of_nat (length (VAE1D.encoder m)) = 3 * 5 - 7
    /\ Z.of_nat (count_convs (VAE1D.encoder m)) = 5 - 2
    /\ Z.of_nat (length (VAE1D.decoder m)) = 3 * 5 - 4.
Proof.
  apply (layer_names_are_distinct 5 3 None).
  - lia.
  - lia.
  - reflexivity.
Defined.

(* ================================================================== *)
(** * Further properties of generate                                   *)
(* ================================================================== *)

Lemma gen_t_lookup (st : torch.State) (tl tm : torch.Tensor) (i : nat) (m l : R) :
  torch.data tm !! i = Some m -> torch.data tl !! i = Some l ->
  torch.data (gen_t st tl tm) !! i = Some (torch.rng st i * exp (0.5 * l) + m)%R.
Proof.
  intros Hm Hl. pose proof (lookup_lt_Some _ _ _ Hl) as Hi.
  unfold gen_t, prod_t, eps_t, std_t, half_t. cbn [torch.data].
  rewrite List.map_map, !map_fmap, !lookup_zip_with, !list_lookup_fmap.
  rewrite lookup_seq_lt by (rewrite length_fmap; exact Hi).
  rewrite Hm, Hl. reflexivity.
Qed.

Lemma generate_final_lookup (st : torch.State) (tl tm : torch.Tensor) :
  torch.heap (generate_final st tl tm) !! (length (torch.heap st) + 3)%nat
  = Some (gen_t st tl tm).
Proof.
  unfold generate_final. cbn [torch.heap].
  rewrite lookup_app_r by lia.
  replace (length (torch.heap st) + 3 - length (torch.heap st))%nat with 3%nat by lia.
  reflexivity.
Qed.

Lemma generate_final_keeps (st : torch.State) (tl tm : torch.Tensor)
    (l : torch.loc) (t : torch.Tensor) :
  torch.heap st !! l = Some t -> torch.heap (generate_final st tl tm) !! l = Some t.
Proof.
  intros Hl. unfold generate_final. cbn [torch.heap].
  rewrite lookup_app_l; [exact Hl | eapply lookup_lt_Some, Hl].
Qed.

(** Two calls of [generate] on the same [mu] and [logvar] return two
    different tensors; the first sample is still there, unchanged, after
    the second call, and so are [mu] and [logvar].  With [k] the number of
    elements of [logvar], the first sample is made from the deviates 0 to
    [k - 1] of the generator and the second from the deviates [k] to
    [2k - 1]: no deviate is used twice. *)
Theorem generate_twice_uses_new_noise
    (self : VAE1D.Self) (st : torch.State) (mu logvar : torch.loc)
    (tm tl : torch.Tensor) :
  torch.heap st !! mu = Some tm -> torch.heap st !! logvar = Some tl ->
  torch.shape_of tm = torch.shape_of tl ->
  exists z1 st1 z2 st2 g1 g2,
    VAE1D.generate self mu logvar st = Ok (z1, st1)
    /\ VAE1D.generate self mu logvar st1 = Ok (z2, st2)
    /\ z1 <> z2
    /\ torch.heap st2 !! z1 = Some g1
    /\ torch.heap st2 !! z2 = Some g2
    /\ torch.heap st2 !! mu = Some tm
    /\ torch.heap st2 !! logvar = Some tl
    /\ length (torch.heap st2) = (length (torch.heap st) + 8)%nat
    /\ forall (i : nat) (m l : R),
         torch.data tm !! i = Some m -> torch.data tl !! i = Some l ->
         torch.data g1 !! i = Some (torch.rng st i * exp (0.5 * l) + m)%R
         /\ torch.data g2 !! i
            = Some (torch.rng st (i + length (torch.data tl))%nat
                    * exp (0.5 * l) + m)%R.
Proof.
  intros Hmu Hlv Hs.
  set (st1 := generate_final st tl tm).
  assert (Hmu1 : torch.heap st1 !! mu = Some tm) by now apply generate_final_keeps.
  assert (Hlv1 : torch.heap st1 !! logvar = Some tl) by now apply generate_final_keeps.
  assert (Hlen1 : length (torch.heap st1) = (length (torch.heap st) + 4)%nat).
  { unfold st1, generate_final. cbn [torch.heap]. rewrite length_app. simpl. lia. }
  exists (length (torch.heap st) + 3)%nat, st1,
         (length (torch.heap st1) + 3)%nat, (generate_final st1 tl tm),
         (gen_t st tl tm), (gen_t st1 tl tm).
  split; [now apply generate_run|]. split; [now apply generate_run|].
  split; [lia|].
  split; [apply generate_final_keeps, generate_final_lookup|].
  split; [apply generate_final_lookup|].
  split; [now apply generate_final_keeps|].
  split; [now apply generate_final_keeps|].
  split.
  { unfold generate_final at 1. cbn [torch.heap]. rewrite length_app, Hlen1. simpl. lia. }
  intros i m l Hm Hl. split; [now apply gen_t_lookup|].
  rewrite (gen_t_lookup st1 tl tm i m l Hm Hl).
  unfold st1, generate_final, std_t, half_t. cbn [torch.rng torch.data].
  now rewrite !List.length_map.
Qed.

Lemma generate_twice_uses_new_noise_witness :
  exists z1 st1 z2 st2 g1 g2,
    VAE1D.generate model_8 0%nat 1%nat store_2 = Ok (z1, st1)
    /\ VAE1D.generate model_8 0%nat 1%nat st1 = Ok (z2, st2)
    /\ z1 <> z2
    /\ torch.heap st2 !! z1 = Some g1
    /\ torch.heap st2 !! z2 = Some g2
    /\ torch.heap st2 !! 0%nat
       = Some {| torch.shape_of := [1; 1; 1]; torch.data := [1%R] |}
    /\ torch.heap st2 !! 1%nat
       = Some {| torch.shape_of := [1; 1; 1]; torch.data := [0%R] |}
    /\ length (torch.heap st2) = (length (torch.heap store_2) + 8)%nat
    /\ forall (i : nat) (m l : R),
         [1%R] !! i = Some m -> [0%R] !! i = Some l ->
         torch.data g1 !! i = Some (torch.rng store_2 i * exp (0.5 * l) + m)%R
         /\ torch.data g2 !! i
            = Some (torch.rng store_2 (i + 1)%nat * exp (0.5 * l) + m)%R.
Proof.
  apply (generate_twice_uses_new_noise model_8 store_2 0%nat 1%nat
           {| torch.shape_of := [1; 1; 1]; torch.data := [1%R] |}
           {| torch.shape_of := [1; 1; 1]; torch.data := [0%R] |}).
  - reflexivity.
  - reflexivity.
  - reflexivity.
Defined.

(* ================================================================== *)
(** * Further properties of TransientDataset                           *)
(* ================================================================== *)

Section DatasetMore.

Variable fs : os.tree.
Variable p : os.Path.

(** The loop of the constructor over the classes [l], numbered from [j]:
    it appends the listing of every class directory to the names, and as
    many copies of the number of the class to the targets. *)
Lemma scan_spec (l : list string) (j : nat)
    (acc acc' : list (list string) * list (list Z)) :
  for_each (List.combine (List.map Z.of_nat (List.seq j (length l))) l)
    (TransientDataset.scan_class fs p) acc = Ok acc' ->
  exists nss,
    fst acc' = fst acc ++ nss
    /\ snd acc' = snd acc
                  ++ zip_with (fun i ns => List.repeat (Z.of_nat i) (length ns))
                       (List.seq j (length l)) nss
    /\ Forall2 (fun c ns => os.listdir fs (os.div p c) = Ok ns) l nss.
Proof.
  revert j acc. induction l as [|c l IH]; intros j acc H.
  - cbn in H. injection H as <-. exists []. cbn [zip_with].
    rewrite !app_nil_r. repeat split. constructor.
  - cbn [length List.seq List.map List.combine for_each] in H.
    unfold TransientDataset.scan_class at 1 in H.
    destruct (os.listdir fs (os.div p c)) as [ns|e] eqn:Hls;
      [rewrite bind_Ok in H | discriminate H].
    apply IH in H as (nss & H1 & H2 & H3). cbn [fst snd] in H1, H2.
    exists (ns :: nss). rewrite H1, H2, <- !app_assoc.
    cbn [length List.seq zip_with]. repeat split. now constructor.
Qed.

Lemma scan_error (l : list string) (j : nat)
    (acc : list (list string) * list (list Z)) (e : exn) :
  for_each (List.combine (List.map Z.of_nat (List.seq j (length l))) l)
    (TransientDataset.scan_class fs p) acc = Raise e ->
  exists c, In c l /\ os.listdir fs (os.div p c) = Raise e.
Proof.
  revert j acc. induction l as [|c l IH]; intros j acc H; [discriminate H|].
  cbn [length List.seq List.map List.combine for_each] in H.
  unfold TransientDataset.scan_class at 1 in H.
  destruct (os.listdir fs (os.div p c)) as [ns|e'] eqn:Hls.
  - rewrite bind_Ok in H. apply IH in H as (c' & Hc' & He). exists c'. split; [now right | exact He].
  - injection H as <-. exists c. split; [now left | exact Hls].
Qed.

End DatasetMore.

Lemma lookup_combine {A B} (l : list A) (k : list B) (i : nat) (a : A) (b : B) :
  l !! i = Some a -> k !! i = Some b -> List.combine l k !! i = Some (a, b).
Proof.
  revert k i. induction l as [|x l IH]; intros [|y k] [|i] Hl Hk;
    try discriminate; cbn in *.
  - now injection Hl as ->; injection Hk as ->.
  - now apply IH.
Qed.

Lemma In_insert_sorted (x y : string) (l : list string) :
  In y (insert_sorted x l) <-> y = x \/ In y l.
Proof.
  induction l as [|z l IH]; simpl; [intuition|].
  destruct (String.leb x z); simpl; [intuition|].
  rewrite IH. intuition.
Qed.

Lemma In_sorted (y : string) (l : list string) : In y (sorted l) <-> In y l.
Proof.
  unfold sorted. induction l as [|x l IH]; simpl; [reflexivity|].
  rewrite In_insert_sorted, IH. intuition.
Qed.

Lemma find_entry_In {A} (entries : list (string * A)) (c : string) (v : A) :
  os.find_entry entries c = Some v -> In (c, v) entries.
Proof.
  induction entries as [|[k w] entries IH]; simpl; [discriminate|].
  destruct (String.eqb_spec k c) as [->|Hne].
  - intros H. injection H as ->. now left.
  - intros H. right. now apply IH.
Qed.

Lemma find_entry_NoDup {A} (entries : list (string * A)) (c : string) (v : A) :
  List.NoDup (List.map fst entries) -> In (c, v) entries ->
  os.find_entry entries c = Some v.
Proof.
  induction entries as [|[k w] entries IH]; simpl; intros Hnd Hin; [contradiction|].
  inversion Hnd as [|? ? Hk Hnd']; subst.
  destruct Hin as [Heq|Hin].
  - injection Heq as -> ->. now rewrite String.eqb_refl.
  - destruct (String.eqb_spec k c) as [->|Hne]; [|now apply IH].
    exfalso. apply Hk. apply in_map_iff. now exists (c, v).
Qed.

Lemma find_entry_listed {A} (entries : list (string * A)) (c : string) :
  In c (List.map fst entries) -> exists v, os.find_entry entries c = Some v.
Proof.
  induction entries as [|[k w] entries IH]; simpl; [contradiction|].
  destruct (String.eqb_spec k c) as [->|Hne]; [eauto|].
  intros [H|H]; [contradiction | now apply IH].
Qed.

(** The index that the constructor builds is grouped by class: the
    classes are the sorted listing of the data path, and for the class at
    position [i] the constructor stores one list, the listing of its
    directory in the order of the directory, and one list of targets, as
    many copies of [i] as the class has samples.  So [names] and [targets]
    have one entry for each class, not one for each sample. *)
Theorem dataset_index_is_grouped_by_class
    (fs : os.tree) (p : os.Path) (normals : list (R * R))
    (ds : TransientDataset.Self) :
  TransientDataset.__init__ fs p normals = Ok ds ->
  TransientDataset.path ds = p
  /\ TransientDataset.mu ds = List.map fst normals
  /\ TransientDataset.sigma ds = List.map snd normals
  /\ (exists ls, os.listdir fs p = Ok ls /\ TransientDataset.classes ds = sorted ls)
  /\ length (TransientDataset.names ds) = length (TransientDataset.classes ds)
  /\ length (TransientDataset.targets ds) = length (TransientDataset.classes ds)
  /\ forall (i : nat) (c : string),
       TransientDataset.classes ds !! i = Some c ->
       exists ns, os.listdir fs (os.div p c) = Ok ns
         /\ TransientDataset.names ds !! i = Some ns
         /\ TransientDataset.targets ds !! i
            = Some (List.repeat (Z.of_nat i) (length ns)).
Proof.
  unfold TransientDataset.__init__. intros H.
  destruct (os.listdir fs p) as [ls|e]; [|discriminate H]. rewrite bind_Ok in H.
  destruct (for_each _ _ _) as [acc|e] eqn:Hacc; [|discriminate H].
  rewrite bind_Ok in H. injection H as <-.
  cbn [TransientDataset.path TransientDataset.mu TransientDataset.sigma
       TransientDataset.classes TransientDataset.names TransientDataset.targets].
  apply scan_spec in Hacc as (nss & H1 & H2 & H3). cbn [fst snd List.app] in H1, H2.
  pose proof (Forall2_length _ _ _ H3) as Hlen.
  rewrite H1, H2.
  split; [reflexivity|]. split; [reflexivity|]. split; [reflexivity|].
  split; [now exists ls|]. split; [now symmetry|].
  split; [rewrite length_zip_with, List.length_seq; lia|].
  intros i c Hc.
  destruct (Forall2_lookup_l _ _ _ _ _ H3 Hc) as (ns & Hns & Hls).
  exists ns. split; [exact Hls|]. split; [exact Hns|].
  rewrite lookup_zip_with, lookup_seq_lt, Hns by (eapply lookup_lt_Some, Hc).
  reflexivity.
Qed.

Lemma dataset_index_is_grouped_by_class_witness :
  TransientDataset.path two_samples_ds = []
  /\ TransientDataset.mu two_samples_ds = List.map fst [(0, 2)%R]
  /\ TransientDataset.sigma two_samples_ds = List.map snd [(0, 2)%R]
  /\ (exists ls, os.listdir two_samples [] = Ok ls
                 /\ TransientDataset.classes two_samples_ds = sorted ls)
  /\ length (TransientDataset.names two_samples_ds)
     = length (TransientDataset.classes two_samples_ds)
  /\ length (TransientDataset.targets two_samples_ds)
     = length (TransientDataset.classes two_samples_ds)
  /\ forall (i : nat) (c : string),
       TransientDataset.classes two_samples_ds !! i = Some c ->
       exists ns, os.listdir two_samples (os.div [] c) = Ok ns
         /\ TransientDataset.names two_samples_ds !! i = Some ns
         /\ TransientDataset.targets two_samples_ds !! i
            = Some (List.repeat (Z.of_nat i) (length ns)).
Proof.
  apply (dataset_index_is_grouped_by_class two_samples [] [(0, 2)%R] two_samples_ds).
  reflexivity.
Defined.

(** A file that lies among the class directories makes the constructor
    fail: it tries to list it as a directory. *)
Theorem dataset_refuses_stray_file
    (fs : os.tree) (normals : list (R * R)) (c : string) (content : option tensor2) :
  List.NoDup (List.map fst fs) -> In (c, os.File content) fs ->
  exists c' content',
    TransientDataset.__init__ fs [] normals = Raise (NotADirectoryError c')
    /\ In (c', os.File content') fs.
Proof.
  intros Hnd Hin. unfold TransientDataset.__init__.
  cbn [os.listdir]. rewrite bind_Ok.
  assert (Hdir : forall x, In x (List.map fst fs) ->
            (exists files, os.find_entry fs x = Some (os.Dir files)
                           /\ os.listdir fs (os.div [] x) = Ok (List.map fst files))
            \/ (exists ct, os.find_entry fs x = Some (os.File ct)
                           /\ os.listdir fs (os.div [] x) = Raise (NotADirectoryError x))).
  { intros x Hx. destruct (find_entry_listed fs x Hx) as ([ct|files] & Hv).
    - right. exists ct. split; [exact Hv|]. unfold os.div. cbn. now rewrite Hv.
    - left. exists files. split; [exact Hv|]. unfold os.div. cbn. now rewrite Hv. }
  unfold enumerate.
  destruct (for_each _ _ _) as [acc|e] eqn:Hacc.
  - exfalso. apply scan_spec in Hacc as (nss & _ & _ & H3).
    assert (Hc : In c (sorted (List.map fst fs))).
    { apply In_sorted, in_map_iff. now exists (c, os.File content). }
    apply list_elem_of_In, list_elem_of_lookup in Hc as [i Hi].
    destruct (Forall2_lookup_l _ _ _ _ _ H3 Hi) as (ns & _ & Hls).
    unfold os.div in Hls. cbn in Hls.
    rewrite (find_entry_NoDup fs c _ Hnd Hin) in Hls. discriminate Hls.
  - apply scan_error in Hacc as (c' & Hc' & He).
    apply (proj1 (In_sorted _ _)) in Hc'.
    destruct (Hdir c' Hc') as [(files & _ & Hok)|(ct & Hv & Herr)].
    + rewrite Hok in He. discriminate He.
    + rewrite Herr in He. injection He as <-.
      exists c', ct. split; [reflexivity | now apply find_entry_In].
Qed.

Lemma dataset_refuses_stray_file_witness :
  exists c' content',
    TransientDataset.__init__
      [("a", os.Dir [("s1.npy", None)]); ("readme.txt", os.File None)] [] [(0, 2)%R]
    = Raise (NotADirectoryError c')
    /\ In (c', os.File content')
         [("a", os.Dir [("s1.npy", None)]); ("readme.txt", os.File None)].
Proof.
  apply (dataset_refuses_stray_file
           [("a", os.Dir [("s1.npy", None)]); ("readme.txt", os.File None)]
           [(0, 2)%R] "readme.txt" None).
  - repeat constructor; simpl; intros H; repeat (destruct H as [H|H]);
      try discriminate H; contradiction.
  - right. left. reflexivity.
Defined.

Lemma string_leb_trans (a b c : string) :
  String.leb a b = true -> String.leb b c = true -> String.leb a c = true.
Proof.
  unfold String.leb. revert b c.
  induction a as [|x a IH]; intros [|y b] [|z c]; simpl; try congruence.
  unfold Ascii.compare.
  destruct (N.compare_spec (N_of_ascii x) (N_of_ascii y)),
           (N.compare_spec (N_of_ascii y) (N_of_ascii z)),
           (N.compare_spec (N_of_ascii x) (N_of_ascii z));
    try lia; try congruence; auto.
  apply IH.
Qed.

Lemma insert_sorted_perm (x : string) (l : list string) :
  Permutation (insert_sorted x l) (x :: l).
Proof.
  induction l as [|y l IH]; simpl; [reflexivity|].
  destruct (String.leb x y); [reflexivity|].
  rewrite IH. apply perm_swap.
Qed.

Lemma sorted_perm (l : list string) : Permutation (sorted l) l.
Proof.
  unfold sorted. induction l as [|x l IH]; simpl; [reflexivity|].
  now rewrite insert_sorted_perm, IH.
Qed.

Lemma insert_sorted_sorted (x : string) (l : list string) :
  StronglySorted string_le l -> StronglySorted string_le (insert_sorted x l).
Proof.
  induction 1 as [|y l Hl IH Hy]; simpl.
  - repeat constructor.
  - destruct (String.leb x y) eqn:Hxy.
    + constructor; [now constructor|]. constructor; [exact Hxy|].
      eapply Forall_impl; [exact Hy|]. intros z Hz. exact (string_leb_trans _ _ _ Hxy Hz).
    + constructor; [exact IH|].
      apply Forall_forall. intros z Hz.
      apply list_elem_of_In, In_insert_sorted in Hz as [->|Hz].
      * destruct (String.leb_total x y) as [H|H]; [congruence | exact H].
      * rewrite Forall_forall in Hy. apply Hy. now apply list_elem_of_In.
Qed.

Lemma sorted_sorted (l : list string) : StronglySorted string_le (sorted l).
Proof.
  unfold sorted. induction l as [|x l IH]; simpl; [constructor|].
  now apply insert_sorted_sorted.
Qed.

(** [sorted] returns the same list for every order of its argument. *)
Lemma sorted_of_permutation (l l' : list string) :
  Permutation l l' -> sorted l = sorted l'.
Proof.
  intros Hp.
  apply (StronglySorted_unique_strong string_le).
  - intros x y _ _. apply String.leb_antisym.
  - apply sorted_sorted.
  - apply sorted_sorted.
  - now rewrite !sorted_perm.
Qed.

Lemma find_entry_permutation {A} (l l' : list (string * A)) (c : string) :
  List.NoDup (List.map fst l) -> Permutation l l' ->
  os.find_entry l c = os.find_entry l' c.
Proof.
  intros Hnd Hp.
  assert (Hnd' : List.NoDup (List.map fst l')).
  { eapply Permutation_NoDup; [|exact Hnd]. now apply Permutation_map. }
  destruct (os.find_entry l c) as [v|] eqn:Hv.
  - symmetry. apply find_entry_NoDup; [exact Hnd'|].
    eapply Permutation_in; [exact Hp|]. now apply find_entry_In.
  - destruct (os.find_entry l' c) as [v'|] eqn:Hv'; [|reflexivity].
    apply find_entry_In in Hv'.
    apply (Permutation_in _ (Permutation_sym Hp)) in Hv'.
    apply (find_entry_NoDup _ _ _ Hnd) in Hv'. congruence.
Qed.

Lemma for_each_ext {A B} (l : list A) (f g : B -> A -> result B) (b : B) :
  (forall b a, f b a = g b a) -> for_each l f b = for_each l g b.
Proof.
  intros Hfg. revert b. induction l as [|a l IH]; intros b; simpl; [reflexivity|].
  rewrite Hfg. destruct (g b a); [apply IH | reflexivity].
Qed.

(** The index does not depend on the order in which the system lists
    the class directories: two listings of the same entries give the same
    dataset, with the same number for every class. *)
Theorem dataset_ignores_order_of_class_listing
    (fs fs' : os.tree) (normals : list (R * R)) :
  List.NoDup (List.map fst fs) -> Permutation fs fs' ->
  TransientDataset.__init__ fs [] normals = TransientDataset.__init__ fs' [] normals.
Proof.
  intros Hnd Hp. unfold TransientDataset.__init__. cbn [os.listdir].
  rewrite !bind_Ok.
  rewrite (sorted_of_permutation (List.map fst fs) (List.map fst fs'))
    by now apply Permutation_map.
  rewrite (for_each_ext _ (TransientDataset.scan_class fs [])
             (TransientDataset.scan_class fs' [])); [reflexivity|].
  intros acc [i c]. unfold TransientDataset.scan_class, os.div. cbn [List.app os.listdir].
  now rewrite (find_entry_permutation fs fs' c Hnd Hp).
Qed.

Lemma dataset_ignores_order_of_class_listing_witness :
  TransientDataset.__init__
    [("b", os.Dir [("s3.npy", None)]); ("a", os.Dir [("s1.npy", None)])] [] [(0, 2)%R]
  = TransientDataset.__init__
      [("a", os.Dir [("s1.npy", None)]); ("b", os.Dir [("s3.npy", None)])] [] [(0, 2)%R].
Proof.
  apply (dataset_ignores_order_of_class_listing
           [("b", os.Dir [("s3.npy", None)]); ("a", os.Dir [("s1.npy", None)])]
           [("a", os.Dir [("s1.npy", None)]); ("b", os.Dir [("s3.npy", None)])]).
  - repeat constructor; simpl; intros H; repeat (destruct H as [H|H]);
      try discriminate H; contradiction.
  - apply perm_swap.
Defined.

Lemma getitem_in_range {A} (l : list A) (i : Z) :
  - Z.of_nat (length l) <= i < Z.of_nat (length l) -> exists a, getitem l i = Ok a.
Proof.
  intros Hi. unfold getitem.
  set (j := if i <? 0 then i + Z.of_nat (length l) else i).
  assert (Hj : 0 <= j < Z.of_nat (length l)).
  { unfold j. destruct (Z.ltb_spec i 0); lia. }
  rewrite (proj2 (Z.ltb_ge j 0)), (proj2 (Z.leb_gt _ j)) by lia. cbn [orb].
  destruct (nth_error l (Z.to_nat j)) as [a|] eqn:Hn; [now exists a|].
  apply nth_error_None in Hn. lia.
Qed.

Lemma getitem_raises_IndexError {A} (l : list A) (i : Z) :
  i < - Z.of_nat (length l) \/ Z.of_nat (length l) <= i ->
  getitem l i = Raise (IndexError "list index out of range").
Proof.
  intros Hi. unfold getitem.
  destruct (Z.ltb_spec i 0) as [Hneg|Hpos].
  - destruct (Z.ltb_spec (i + Z.of_nat (length l)) 0); [reflexivity | lia].
  - rewrite (proj2 (Z.ltb_ge i 0)), (proj2 (Z.leb_le _ i)) by lia. reflexivity.
Qed.

(** On a dataset that the constructor has built, with [len] its length
    (the number of classes), [__getitem__] raises the [TypeError] of the
    list subscript for every index from [-len] to [len - 1] and
    [IndexError] for every other index; an index that counts a sample
    beyond the number of classes is out of range. *)
Theorem getitem_error_by_index
    (fs : os.tree) (p : os.Path) (normals : list (R * R))
    (ds : TransientDataset.Self) (i_in i_out : Z) :
  TransientDataset.__init__ fs p normals = Ok ds ->
  - TransientDataset.__len__ ds <= i_in < TransientDataset.__len__ ds ->
  i_out < - TransientDataset.__len__ ds \/ TransientDataset.__len__ ds <= i_out ->
  TransientDataset.__getitem__ fs ds i_in
  = Raise (TypeError "list indices must be integers or slices, not list")
  /\ TransientDataset.__getitem__ fs ds i_out
     = Raise (IndexError "list index out of range").
Proof.
  intros Hinit Hin Hout. unfold TransientDataset.__len__ in *.
  assert (Hlen : length (TransientDataset.targets ds)
                 = length (TransientDataset.names ds)).
  { unfold TransientDataset.__init__ in Hinit.
    destruct (os.listdir fs p) as [ls|e]; [|discriminate Hinit].
    rewrite bind_Ok in Hinit.
    destruct (for_each _ _ _) as [acc|e] eqn:Hacc; [|discriminate Hinit].
    rewrite bind_Ok in Hinit. injection Hinit as <-.
    cbn [TransientDataset.names TransientDataset.targets].
    apply scan_spec in Hacc as (nss & H1 & H2 & H3).
    pose proof (Forall2_length _ _ _ H3) as Hl. cbn [fst snd List.app] in H1, H2.
    rewrite H1, H2, length_zip_with, List.length_seq. lia. }
  unfold TransientDataset.__getitem__. split.
  - destruct (getitem_in_range (TransientDataset.names ds) i_in Hin) as [name ->].
    destruct (getitem_in_range (TransientDataset.targets ds) i_in) as [target ->];
      [rewrite Hlen; exact Hin|].
    reflexivity.
  - rewrite (getitem_raises_IndexError (TransientDataset.names ds)) by exact Hout.
    reflexivity.
Qed.

Lemma getitem_error_by_index_witness :
  TransientDataset.__getitem__ two_samples two_samples_ds (-1)
  = Raise (TypeError "list indices must be integers or slices, not list")
  /\ TransientDataset.__getitem__ two_samples two_samples_ds 1
     = Raise (IndexError "list index out of range").
Proof.
  apply (getitem_error_by_index two_samples [] [(0, 2)%R] two_samples_ds (-1) 1).
  - reflexivity.
  - unfold TransientDataset.__len__. simpl. lia.
  - unfold TransientDataset.__len__. simpl. lia.
Defined.

Lemma norm_shape {A} (f : list R -> A -> list R) (arr : list (list R)) (k : list A) :
  (forall row a, length (f row a) = length row) ->
  length arr = length k ->
  List.map (@length R) (zip_with f arr k) = List.map (@length R) arr.
Proof.
  intros Hf. revert k. induction arr as [|row arr IH]; intros [|a k] Hlen;
    try discriminate Hlen; [reflexivity|].
  cbn [zip_with List.map]. injection Hlen as Hlen. now rewrite Hf, IH.
Qed.

(** [norm] keeps the shape of the array and works channel by channel:
    row [c] of the result is row [c] of the array with the mean of channel
    [c] subtracted from every element and the difference divided by the
    standard deviation of channel [c]. *)
Theorem norm_is_per_channel
    (self : TransientDataset.Self) (arr : list (list R)) (c : nat)
    (row : list R) (m s : R) :
  length arr = length (TransientDataset.mu self) ->
  length (TransientDataset.mu self) = length (TransientDataset.sigma self) ->
  arr !! c = Some row ->
  TransientDataset.mu self !! c = Some m ->
  TransientDataset.sigma self !! c = Some s ->
  s <> 0%R ->
  exists out : list (list R), TransientDataset.norm self arr = Ok out
    /\ List.map (@length R) out = List.map (@length R) arr
    /\ out !! c = Some (List.map (fun x => (x - m) / s)%R row).
Proof.
  intros Hlen Hms Hrow Hm Hs _. unfold TransientDataset.norm.
  rewrite decide_True by exact Hlen. eexists. split; [reflexivity|]. split.
  - apply norm_shape; [intros; apply List.length_map|].
    rewrite List.length_combine. lia.
  - rewrite lookup_zip_with, Hrow, (lookup_combine _ _ _ _ _ Hm Hs). reflexivity.
Qed.

Lemma norm_is_per_channel_witness :
  exists out : list (list R),
    TransientDataset.norm two_samples_ds [[2; 2; 2; 2]%R] = Ok out
    /\ List.map (@length R) out = List.map (@length R) [[2; 2; 2; 2]%R]
    /\ out !! 0%nat = Some (List.map (fun x => (x - 0) / 2)%R [2; 2; 2; 2]%R).
Proof.
  apply (norm_is_per_channel two_samples_ds [[2; 2; 2; 2]%R] 0%nat [2; 2; 2; 2]%R 0%R 2%R).
  - reflexivity.
  - reflexivity.
  - reflexivity.
  - reflexivity.
  - reflexivity.
  - lra.
Defined.

(* ================================================================== *)
(** * load_datasets                                                    *)
(* ================================================================== *)

(** [load_datasets] never returns its loaders.  Without a file
    [normals.npy] in the working directory [np.load] fails; with one, the
    first call [datasets.TransientDataset(...)] reads the name [datasets],
    which the module neither defines nor imports, and raises [NameError],
    whatever the three directories hold. *)
Theorem load_datasets_never_returns
    (normals_npy : option (list (R * R))) (train val test : os.tree)
    (batch_size : option Z) :
  load_datasets normals_npy train val test batch_size
  = Raise (match normals_npy with
           | Some _ => NameError "datasets"
           | None => FileNotFoundError "normals.npy"
           end).
Proof.
  unfold load_datasets. destruct normals_npy as [arr|]; [|reflexivity].
  rewrite bind_Ok.
  assert (Hg : load_global VAE1D.module_globals "datasets" = Raise (NameError "datasets"))
    by (vm_compute; reflexivity).
  rewrite Hg. reflexivity.
Qed.

(* ================================================================== *)
(** * The decoder mirrors the encoder                                  *)
(* ================================================================== *)

(** For every stage [i] of the encoder pyramid of a model built for size
    [2^n], the decoder has the stage [i + 1] that undoes it: the encoder
    stage goes from [64 * 2^i] channels to twice as many and halves the
    length, and the decoder stage brings its output back to the shape the
    encoder stage started from. *)
Theorem decoder_stage_undoes_encoder_stage
    (n n_channels b i h : Z) (n_latent : option Z) :
  3 <= n -> 0 < n_channels -> 0 < default 100 n_latent -> 1 <= b ->
  0 <= i < n - 3 -> 2 <= h ->
  exists m, VAE1D.__init__ (2 ^ n) n_channels n_latent = Ok m
    /\ (forall x, In x (encoder_stage_layers i) -> In x (VAE1D.encoder m))
    /\ (forall x, In x (decoder_stage_layers (i + 1)) -> In x (VAE1D.decoder m))
    /\ nn.Sequential_forward (encoder_stage_layers i) [b; depth * 2 ^ i; 2 * h]
       = Ok [b; depth * 2 ^ (i + 1); h]
    /\ nn.Sequential_forward (decoder_stage_layers (i + 1)) [b; depth * 2 ^ (i + 1); h]
       = Ok [b; depth * 2 ^ i; 2 * h].
Proof.
  intros Hn Hc Hl Hb Hi Hh.
  eexists. split; [apply init_succeeds; assumption|].
  cbn [VAE1D.encoder VAE1D.decoder].
  split; [|split; [|split]].
  - intros x Hx. unfold encoder_layers. apply in_or_app. right.
    apply in_flat_map. exists i. split; [apply in_range; lia | exact Hx].
  - intros x Hx. unfold decoder_layers. apply in_or_app. right.
    apply in_or_app. left.
    apply in_flat_map. exists (i + 1). split; [apply in_range_down; lia | exact Hx].
  - apply encoder_stage_shape; assumption.
  - rewrite decoder_stage_shape by (assumption || lia).
    replace (i + 1 - 1) with i by lia. reflexivity.
Qed.

Lemma decoder_stage_undoes_encoder_stage_witness :
  exists m, VAE1D.__init__ (2 ^ 5) 3 None = Ok m
    /\ (forall x, In x (encoder_stage_layers 1) -> In x (VAE1D.encoder m))
    /\ (forall x, In x (decoder_stage_layers (1 + 1)) -> In x (VAE1D.decoder m))
    /\ nn.Sequential_forward (encoder_stage_layers 1) [7; depth * 2 ^ 1; 2 * 4]
       = Ok [7; depth * 2 ^ (1 + 1); 4]
    /\ nn.Sequential_forward (decoder_stage_layers (1 + 1)) [7; depth * 2 ^ (1 + 1); 4]
       = Ok [7; depth * 2 ^ 1; 2 * 4].
Proof.
  apply (decoder_stage_undoes_encoder_stage 5 3 7 1 4 None).
  - lia.
  - lia.
  - reflexivity.
  - lia.
  - lia.
  - lia.
Defined.
